(** * Shipping-bill extractor: numeric normalisation, flattening and record assembly

    A shallow embedding of [succes.py] (functions [clean_number],
    [flatten_to_excel_rows] and the data-assembly part of [process_files],
    with the constant [FINAL_COLUMNS]).

    - Python values that reach these functions are the values produced by
      [json.loads]: [None], booleans, integers, floats, strings, lists and
      dicts ([pyval]).  Dicts keep insertion order (association lists).
    - Python [str] is a list of Unicode code points ([pystr]).
    - Python [float] is IEEE-754 binary64, modelled by the Standard Library's
      [SpecFloat] with [prec = 53] and [emax = 1024] (round to nearest even).
    - Raised exceptions are the [Raise] branch of the [result] monad. *)

From Stdlib Require Import ZArith List String Ascii Bool Lia.
From Stdlib Require Import Floats.SpecFloat.
Import ListNotations.

Open Scope Z_scope.

(** ** Exceptions and the result monad *)

Inductive exn :=
| TypeError
| AttributeError
| ValueError
| OverflowError
| ZeroDivisionError.

Inductive result (A : Type) :=
| Ok (a : A)
| Raise (e : exn).
Arguments Ok {A} a.
Arguments Raise {A} e.

Definition bind {A B} (m : result A) (f : A -> result B) : result B :=
  match m with
  | Ok a => f a
  | Raise e => Raise e
  end.

Notation "'let*' x ':=' m 'in' f" := (bind m (fun x => f))
  (at level 200, x name, m at level 100, f at level 200).

Fixpoint mapM {A B} (f : A -> result B) (l : list A) : result (list B) :=
  match l with
  | [] => Ok []
  | x :: l' => let* y := f x in let* ys := mapM f l' in Ok (y :: ys)
  end.

(** ** Binary64 floats *)

Module F64.

Definition prec : Z := 53.
Definition emax : Z := 1024.

Abbreviation t := spec_float.

Definition zero : t := S754_zero false.

(** [int -> float] conversion before the overflow check: round to nearest even. *)
Definition of_Z (n : Z) : t := binary_normalize prec emax n 0 false.

(** The binary64 value nearest to [p / q] (ties to even), with sign [s]:
    the correctly rounded result that CPython's string-to-float conversion
    and [round] produce. *)
Definition of_ratio (s : bool) (p q : positive) : t :=
  let '(mz, ez, lz) := SFdiv_core_binary prec emax (Zpos p) 0 (Zpos q) 0 in
  binary_round_aux prec emax s mz ez lz.

(** Same, for a numerator [n >= 0]; [0] gives a zero of sign [s]. *)
Definition of_q (s : bool) (n : Z) (q : positive) : t :=
  match n with
  | Zpos p => of_ratio s p q
  | _ => S754_zero s
  end.

Definition div (x y : t) : t := SFdiv prec emax x y.
Definition mul (x y : t) : t := SFmul prec emax x y.

(** Python's [x > 0] for a float [x] (false on NaN). *)
Definition gt0 (x : t) : bool := SFltb (S754_zero false) x.

Definition is_zero (x : t) : bool :=
  match x with S754_zero _ => true | _ => false end.

Definition is_finite (x : t) : bool :=
  match x with S754_zero _ | S754_finite _ _ _ => true | _ => false end.

Definition eqb (x y : t) : bool :=
  match x, y with
  | S754_zero s, S754_zero s' => Bool.eqb s s'
  | S754_infinity s, S754_infinity s' => Bool.eqb s s'
  | S754_nan, S754_nan => true
  | S754_finite s m e, S754_finite s' m' e' =>
      Bool.eqb s s' && Pos.eqb m m' && Z.eqb e e'
  | _, _ => false
  end.

(** The exact absolute value of a finite float as a fraction [num / den]. *)
Definition abs_frac (m : positive) (e : Z) : Z * positive :=
  match e with
  | Zneg d => (Zpos m, Pos.pow 2 d)
  | _ => (Zpos m * 2 ^ e, 1%positive)
  end.

(** Division of [n >= 0] by [d > 0], rounded half to even. *)
Definition div_round_even (n : Z) (d : positive) : Z :=
  let '(q, r) := Z.div_eucl n (Zpos d) in
  match Z.compare (2 * r) (Zpos d) with
  | Lt => q
  | Gt => q + 1
  | Eq => if Z.even q then q else q + 1
  end.

(** [|x| * 100] rounded half to even on the exact binary value. *)
Definition hundredths (m : positive) (e : Z) : Z :=
  let '(n, d) := abs_frac m e in div_round_even (100 * n) d.

(** Python's [round(x, 2)] on a float: correctly rounded to two decimals,
    half to even on the exact value; zeros, infinities and NaN unchanged. *)
Definition round2 (x : t) : t :=
  match x with
  | S754_finite s m e => of_q s (hundredths m e) 100
  | _ => x
  end.

End F64.

(** ** Python strings as lists of code points *)

Definition pystr := list Z.

Fixpoint pystr_eqb (a b : pystr) : bool :=
  match a, b with
  | [], [] => true
  | x :: a', y :: b' => Z.eqb x y && pystr_eqb a' b'
  | _, _ => false
  end.

(** UTF-8 decoding of a Rocq string literal, used to write the string
    constants of the source (e.g. the en dash of a column name). *)
Fixpoint utf8_decode (bs : list ascii) : pystr :=
  match bs with
  | [] => []
  | b0 :: rest =>
      let c0 := Z.of_nat (nat_of_ascii b0) in
      let cont b := Z.land (Z.of_nat (nat_of_ascii b)) 63 in
      if c0 <? 128 then c0 :: utf8_decode rest
      else if c0 <? 224 then
        match rest with
        | b1 :: r => Z.lor (Z.shiftl (Z.land c0 31) 6) (cont b1) :: utf8_decode r
        | _ => []
        end
      else if c0 <? 240 then
        match rest with
        | b1 :: b2 :: r =>
            Z.lor (Z.shiftl (Z.land c0 15) 12)
                  (Z.lor (Z.shiftl (cont b1) 6) (cont b2)) :: utf8_decode r
        | _ => []
        end
      else
        match rest with
        | b1 :: b2 :: b3 :: r =>
            Z.lor (Z.shiftl (Z.land c0 7) 18)
                  (Z.lor (Z.shiftl (cont b1) 12)
                         (Z.lor (Z.shiftl (cont b2) 6) (cont b3))) :: utf8_decode r
        | _ => []
        end
  end.

Definition u (s : string) : pystr := utf8_decode (list_ascii_of_string s).

(** *** Unicode tables of the Python 3.11 runtime ([unicodedata] 14.0) *)

(** Code points of the digit zero of each block of decimal digits
    (category Nd): each block is ten consecutive code points 0..9. *)
Definition nd_zeros : list Z := [
  48; 1632; 1776; 1984; 2406; 2534; 2662; 2790; 2918; 3046; 3174; 3302;
  3430; 3558; 3664; 3792; 3872; 4160; 4240; 6112; 6160; 6470; 6608; 6784;
  6800; 6992; 7088; 7232; 7248; 42528; 43216; 43264; 43472; 43504; 43600; 44016;
  65296; 66720; 68912; 69734; 69872; 69942; 70096; 70384; 70736; 70864; 71248; 71360;
  71472; 71904; 72016; 72784; 73040; 73120; 92768; 92864; 93008; 120782; 120792; 120802;
  120812; 120822; 123200; 123632; 125264; 130032].

(** Code points [c] with [chr(c).isspace()]. *)
Definition space_chars : list Z := [
  9; 10; 11; 12; 13; 28; 29; 30; 31; 32; 133; 160;
  5760; 8192; 8193; 8194; 8195; 8196; 8197; 8198; 8199; 8200; 8201; 8202;
  8232; 8233; 8239; 8287; 12288].

(** Maximal ranges of code points [c] with [not chr(c).isprintable()]. *)
Definition nonprintable_ranges : list (Z * Z) := [
  (0, 31); (127, 160); (173, 173); (888, 889); (896, 899); (907, 907);
  (909, 909); (930, 930); (1328, 1328); (1367, 1368); (1419, 1420); (1424, 1424);
  (1480, 1487); (1515, 1518); (1525, 1541); (1564, 1564); (1757, 1757); (1806, 1807);
  (1867, 1868); (1970, 1983); (2043, 2044); (2094, 2095); (2111, 2111); (2140, 2141);
  (2143, 2143); (2155, 2159); (2191, 2199); (2274, 2274); (2436, 2436); (2445, 2446);
  (2449, 2450); (2473, 2473); (2481, 2481); (2483, 2485); (2490, 2491); (2501, 2502);
  (2505, 2506); (2511, 2518); (2520, 2523); (2526, 2526); (2532, 2533); (2559, 2560);
  (2564, 2564); (2571, 2574); (2577, 2578); (2601, 2601); (2609, 2609); (2612, 2612);
  (2615, 2615); (2618, 2619); (2621, 2621); (2627, 2630); (2633, 2634); (2638, 2640);
  (2642, 2648); (2653, 2653); (2655, 2661); (2679, 2688); (2692, 2692); (2702, 2702);
  (2706, 2706); (2729, 2729); (2737, 2737); (2740, 2740); (2746, 2747); (2758, 2758);
  (2762, 2762); (2766, 2767); (2769, 2783); (2788, 2789); (2802, 2808); (2816, 2816);
  (2820, 2820); (2829, 2830); (2833, 2834); (2857, 2857); (2865, 2865); (2868, 2868);
  (2874, 2875); (2885, 2886); (2889, 2890); (2894, 2900); (2904, 2907); (2910, 2910);
  (2916, 2917); (2936, 2945); (2948, 2948); (2955, 2957); (2961, 2961); (2966, 2968);
  (2971, 2971); (2973, 2973); (2976, 2978); (2981, 2983); (2987, 2989); (3002, 3005);
  (3011, 3013); (3017, 3017); (3022, 3023); (3025, 3030); (3032, 3045); (3067, 3071);
  (3085, 3085); (3089, 3089); (3113, 3113); (3130, 3131); (3141, 3141); (3145, 3145);
  (3150, 3156); (3159, 3159); (3163, 3164); (3166, 3167); (3172, 3173); (3184, 3190);
  (3213, 3213); (3217, 3217); (3241, 3241); (3252, 3252); (3258, 3259); (3269, 3269);
  (3273, 3273); (3278, 3284); (3287, 3292); (3295, 3295); (3300, 3301); (3312, 3312);
  (3315, 3327); (3341, 3341); (3345, 3345); (3397, 3397); (3401, 3401); (3408, 3411);
  (3428, 3429); (3456, 3456); (3460, 3460); (3479, 3481); (3506, 3506); (3516, 3516);
  (3518, 3519); (3527, 3529); (3531, 3534); (3541, 3541); (3543, 3543); (3552, 3557);
  (3568, 3569); (3573, 3584); (3643, 3646); (3676, 3712); (3715, 3715); (3717, 3717);
  (3723, 3723); (3748, 3748); (3750, 3750); (3774, 3775); (3781, 3781); (3783, 3783);
  (3790, 3791); (3802, 3803); (3808, 3839); (3912, 3912); (3949, 3952); (3992, 3992);
  (4029, 4029); (4045, 4045); (4059, 4095); (4294, 4294); (4296, 4300); (4302, 4303);
  (4681, 4681); (4686, 4687); (4695, 4695); (4697, 4697); (4702, 4703); (4745, 4745);
  (4750, 4751); (4785, 4785); (4790, 4791); (4799, 4799); (4801, 4801); (4806, 4807);
  (4823, 4823); (4881, 4881); (4886, 4887); (4955, 4956); (4989, 4991); (5018, 5023);
  (5110, 5111); (5118, 5119); (5760, 5760); (5789, 5791); (5881, 5887); (5910, 5918);
  (5943, 5951); (5972, 5983); (5997, 5997); (6001, 6001); (6004, 6015); (6110, 6111);
  (6122, 6127); (6138, 6143); (6158, 6158); (6170, 6175); (6265, 6271); (6315, 6319);
  (6390, 6399); (6431, 6431); (6444, 6447); (6460, 6463); (6465, 6467); (6510, 6511);
  (6517, 6527); (6572, 6575); (6602, 6607); (6619, 6621); (6684, 6685); (6751, 6751);
  (6781, 6782); (6794, 6799); (6810, 6815); (6830, 6831); (6863, 6911); (6989, 6991);
  (7039, 7039); (7156, 7163); (7224, 7226); (7242, 7244); (7305, 7311); (7355, 7356);
  (7368, 7375); (7419, 7423); (7958, 7959); (7966, 7967); (8006, 8007); (8014, 8015);
  (8024, 8024); (8026, 8026); (8028, 8028); (8030, 8030); (8062, 8063); (8117, 8117);
  (8133, 8133); (8148, 8149); (8156, 8156); (8176, 8177); (8181, 8181); (8191, 8207);
  (8232, 8239); (8287, 8303); (8306, 8307); (8335, 8335); (8349, 8351); (8385, 8399);
  (8433, 8447); (8588, 8591); (9255, 9279); (9291, 9311); (11124, 11125); (11158, 11158);
  (11508, 11512); (11558, 11558); (11560, 11564); (11566, 11567); (11624, 11630); (11633, 11646);
  (11671, 11679); (11687, 11687); (11695, 11695); (11703, 11703); (11711, 11711); (11719, 11719);
  (11727, 11727); (11735, 11735); (11743, 11743); (11870, 11903); (11930, 11930); (12020, 12031);
  (12246, 12271); (12284, 12288); (12352, 12352); (12439, 12440); (12544, 12548); (12592, 12592);
  (12687, 12687); (12772, 12783); (12831, 12831); (42125, 42127); (42183, 42191); (42540, 42559);
  (42744, 42751); (42955, 42959); (42962, 42962); (42964, 42964); (42970, 42993); (43053, 43055);
  (43066, 43071); (43128, 43135); (43206, 43213); (43226, 43231); (43348, 43358); (43389, 43391);
  (43470, 43470); (43482, 43485); (43519, 43519); (43575, 43583); (43598, 43599); (43610, 43611);
  (43715, 43738); (43767, 43776); (43783, 43784); (43791, 43792); (43799, 43807); (43815, 43815);
  (43823, 43823); (43884, 43887); (44014, 44015); (44026, 44031); (55204, 55215); (55239, 55242);
  (55292, 63743); (64110, 64111); (64218, 64255); (64263, 64274); (64280, 64284); (64311, 64311);
  (64317, 64317); (64319, 64319); (64322, 64322); (64325, 64325); (64451, 64466); (64912, 64913);
  (64968, 64974); (64976, 65007); (65050, 65055); (65107, 65107); (65127, 65127); (65132, 65135);
  (65141, 65141); (65277, 65280); (65471, 65473); (65480, 65481); (65488, 65489); (65496, 65497);
  (65501, 65503); (65511, 65511); (65519, 65531); (65534, 65535); (65548, 65548); (65575, 65575);
  (65595, 65595); (65598, 65598); (65614, 65615); (65630, 65663); (65787, 65791); (65795, 65798);
  (65844, 65846); (65935, 65935); (65949, 65951); (65953, 65999); (66046, 66175); (66205, 66207);
  (66257, 66271); (66300, 66303); (66340, 66348); (66379, 66383); (66427, 66431); (66462, 66462);
  (66500, 66503); (66518, 66559); (66718, 66719); (66730, 66735); (66772, 66775); (66812, 66815);
  (66856, 66863); (66916, 66926); (66939, 66939); (66955, 66955); (66963, 66963); (66966, 66966);
  (66978, 66978); (66994, 66994); (67002, 67002); (67005, 67071); (67383, 67391); (67414, 67423);
  (67432, 67455); (67462, 67462); (67505, 67505); (67515, 67583); (67590, 67591); (67593, 67593);
  (67638, 67638); (67641, 67643); (67645, 67646); (67670, 67670); (67743, 67750); (67760, 67807);
  (67827, 67827); (67830, 67834); (67868, 67870); (67898, 67902); (67904, 67967); (68024, 68027);
  (68048, 68049); (68100, 68100); (68103, 68107); (68116, 68116); (68120, 68120); (68150, 68151);
  (68155, 68158); (68169, 68175); (68185, 68191); (68256, 68287); (68327, 68330); (68343, 68351);
  (68406, 68408); (68438, 68439); (68467, 68471); (68498, 68504); (68509, 68520); (68528, 68607);
  (68681, 68735); (68787, 68799); (68851, 68857); (68904, 68911); (68922, 69215); (69247, 69247);
  (69290, 69290); (69294, 69295); (69298, 69375); (69416, 69423); (69466, 69487); (69514, 69551);
  (69580, 69599); (69623, 69631); (69710, 69713); (69750, 69758); (69821, 69821); (69827, 69839);
  (69865, 69871); (69882, 69887); (69941, 69941); (69960, 69967); (70007, 70015); (70112, 70112);
  (70133, 70143); (70162, 70162); (70207, 70271); (70279, 70279); (70281, 70281); (70286, 70286);
  (70302, 70302); (70314, 70319); (70379, 70383); (70394, 70399); (70404, 70404); (70413, 70414);
  (70417, 70418); (70441, 70441); (70449, 70449); (70452, 70452); (70458, 70458); (70469, 70470);
  (70473, 70474); (70478, 70479); (70481, 70486); (70488, 70492); (70500, 70501); (70509, 70511);
  (70517, 70655); (70748, 70748); (70754, 70783); (70856, 70863); (70874, 71039); (71094, 71095);
  (71134, 71167); (71237, 71247); (71258, 71263); (71277, 71295); (71354, 71359); (71370, 71423);
  (71451, 71452); (71468, 71471); (71495, 71679); (71740, 71839); (71923, 71934); (71943, 71944);
  (71946, 71947); (71956, 71956); (71959, 71959); (71990, 71990); (71993, 71994); (72007, 72015);
  (72026, 72095); (72104, 72105); (72152, 72153); (72165, 72191); (72264, 72271); (72355, 72367);
  (72441, 72703); (72713, 72713); (72759, 72759); (72774, 72783); (72813, 72815); (72848, 72849);
  (72872, 72872); (72887, 72959); (72967, 72967); (72970, 72970); (73015, 73017); (73019, 73019);
  (73022, 73022); (73032, 73039); (73050, 73055); (73062, 73062); (73065, 73065); (73103, 73103);
  (73106, 73106); (73113, 73119); (73130, 73439); (73465, 73647); (73649, 73663); (73714, 73726);
  (74650, 74751); (74863, 74863); (74869, 74879); (75076, 77711); (77811, 77823); (78895, 82943);
  (83527, 92159); (92729, 92735); (92767, 92767); (92778, 92781); (92863, 92863); (92874, 92879);
  (92910, 92911); (92918, 92927); (92998, 93007); (93018, 93018); (93026, 93026); (93048, 93052);
  (93072, 93759); (93851, 93951); (94027, 94030); (94088, 94094); (94112, 94175); (94181, 94191);
  (94194, 94207); (100344, 100351); (101590, 101631); (101641, 110575); (110580, 110580); (110588, 110588);
  (110591, 110591); (110883, 110927); (110931, 110947); (110952, 110959); (111356, 113663); (113771, 113775);
  (113789, 113791); (113801, 113807); (113818, 113819); (113824, 118527); (118574, 118575); (118599, 118607);
  (118724, 118783); (119030, 119039); (119079, 119080); (119155, 119162); (119275, 119295); (119366, 119519);
  (119540, 119551); (119639, 119647); (119673, 119807); (119893, 119893); (119965, 119965); (119968, 119969);
  (119971, 119972); (119975, 119976); (119981, 119981); (119994, 119994); (119996, 119996); (120004, 120004);
  (120070, 120070); (120075, 120076); (120085, 120085); (120093, 120093); (120122, 120122); (120127, 120127);
  (120133, 120133); (120135, 120137); (120145, 120145); (120486, 120487); (120780, 120781); (121484, 121498);
  (121504, 121504); (121520, 122623); (122655, 122879); (122887, 122887); (122905, 122906); (122914, 122914);
  (122917, 122917); (122923, 123135); (123181, 123183); (123198, 123199); (123210, 123213); (123216, 123535);
  (123567, 123583); (123642, 123646); (123648, 124895); (124903, 124903); (124908, 124908); (124911, 124911);
  (124927, 124927); (125125, 125126); (125143, 125183); (125260, 125263); (125274, 125277); (125280, 126064);
  (126133, 126208); (126270, 126463); (126468, 126468); (126496, 126496); (126499, 126499); (126501, 126502);
  (126504, 126504); (126515, 126515); (126520, 126520); (126522, 126522); (126524, 126529); (126531, 126534);
  (126536, 126536); (126538, 126538); (126540, 126540); (126544, 126544); (126547, 126547); (126549, 126550);
  (126552, 126552); (126554, 126554); (126556, 126556); (126558, 126558); (126560, 126560); (126563, 126563);
  (126565, 126566); (126571, 126571); (126579, 126579); (126584, 126584); (126589, 126589); (126591, 126591);
  (126602, 126602); (126620, 126624); (126628, 126628); (126634, 126634); (126652, 126703); (126706, 126975);
  (127020, 127023); (127124, 127135); (127151, 127152); (127168, 127168); (127184, 127184); (127222, 127231);
  (127406, 127461); (127491, 127503); (127548, 127551); (127561, 127567); (127570, 127583); (127590, 127743);
  (128728, 128732); (128749, 128751); (128765, 128767); (128884, 128895); (128985, 128991); (129004, 129007);
  (129009, 129023); (129036, 129039); (129096, 129103); (129114, 129119); (129160, 129167); (129198, 129199);
  (129202, 129279); (129620, 129631); (129646, 129647); (129653, 129655); (129661, 129663); (129671, 129679);
  (129709, 129711); (129723, 129727); (129734, 129743); (129754, 129759); (129768, 129775); (129783, 129791);
  (129939, 129939); (129995, 130031); (130042, 131071); (173792, 173823); (177977, 177983); (178206, 178207);
  (183970, 183983); (191457, 194559); (195102, 196607); (201547, 917759); (918000, 1114111)].

(** The decimal value of a Unicode decimal digit (what [re]'s [\d] matches
    and what [float()] translates to an ASCII digit). *)
Definition decimal_value (c : Z) : option Z :=
  match find (fun z => (z <=? c) && (c <? z + 10)) nd_zeros with
  | Some z => Some (c - z)
  | None => None
  end.

Definition is_decimal (c : Z) : bool :=
  match decimal_value c with Some _ => true | None => false end.

Definition is_space (c : Z) : bool := existsb (Z.eqb c) space_chars.

Definition is_printable (c : Z) : bool :=
  negb (existsb (fun '(lo, hi) => (lo <=? c) && (c <=? hi)) nonprintable_ranges).

(** [str.strip()] with no argument. *)
Definition lstrip (s : pystr) : pystr :=
  let fix go s := match s with
                  | c :: s' => if is_space c then go s' else s
                  | [] => []
                  end in go s.

Definition strip (s : pystr) : pystr := rev (lstrip (rev (lstrip s))).

(** Decimal digits of [n >= 0] as ASCII code points, most significant first. *)
Fixpoint digits_aux (fuel : nat) (n : Z) (acc : pystr) : pystr :=
  match fuel with
  | O => acc
  | S f => if n <? 10 then (48 + n) :: acc
           else digits_aux f (n / 10) (48 + n mod 10 :: acc)
  end.

Definition digits (n : Z) : pystr := digits_aux (Z.to_nat (Z.log2 n + 1)) n [].

(** ** Python values *)

Set Warnings "-register-all".

Inductive pyval :=
| PyNone
| PyBool (b : bool)
| PyInt (n : Z)
| PyFloat (f : F64.t)
| PyStr (s : pystr)
| PyList (l : list pyval)
| PyDict (kv : list (pystr * pyval)).

(** Truth value testing ([if not value]). *)
Definition truthy (v : pyval) : bool :=
  match v with
  | PyNone => false
  | PyBool b => b
  | PyInt n => negb (n =? 0)
  | PyFloat f => negb (F64.is_zero f)
  | PyStr s => negb (match s with [] => true | _ => false end)
  | PyList l => negb (match l with [] => true | _ => false end)
  | PyDict kv => negb (match kv with [] => true | _ => false end)
  end.

Definition dict_lookup (kv : list (pystr * pyval)) (k : pystr) : option pyval :=
  match find (fun p => pystr_eqb (fst p) k) kv with
  | Some (_, v) => Some v
  | None => None
  end.

(** [d.get(k, default)]: only dicts have a [get] method. *)
Definition py_get (d : pyval) (k : pystr) (default : pyval) : result pyval :=
  match d with
  | PyDict kv =>
      Ok (match dict_lookup kv k with Some v => v | None => default end)
  | _ => Raise AttributeError
  end.

(** [len(x)]. *)
Definition py_len (v : pyval) : result Z :=
  match v with
  | PyStr s => Ok (Z.of_nat (List.length s))
  | PyList l => Ok (Z.of_nat (List.length l))
  | PyDict kv => Ok (Z.of_nat (List.length kv))
  | _ => Raise TypeError
  end.

(** The elements a [for] loop visits: list elements, the one-character
    strings of a string, the keys of a dict. *)
Definition py_iter (v : pyval) : result (list pyval) :=
  match v with
  | PyList l => Ok l
  | PyStr s => Ok (map (fun c => PyStr [c]) s)
  | PyDict kv => Ok (map (fun p => PyStr (fst p)) kv)
  | _ => Raise TypeError
  end.

(** ** [repr] and [str] *)

Module Repr.

Fixpoint join (sep : pystr) (l : list pystr) : pystr :=
  match l with
  | [] => []
  | [x] => x
  | x :: l' => x ++ sep ++ join sep l'
  end.

Definition hexdig (n : Z) : Z := if n <? 10 then 48 + n else 87 + n.

Fixpoint hex (w : nat) (n : Z) : pystr :=
  match w with
  | O => []
  | S w' => hex w' (n / 16) ++ [hexdig (n mod 16)]
  end.

(** One character of a string literal written between quotes [q]. *)
Definition escape_char (q c : Z) : pystr :=
  if (c =? q) || (c =? 92) then [92; c]
  else if c =? 9 then [92; 116]
  else if c =? 10 then [92; 110]
  else if c =? 13 then [92; 114]
  else if (c <? 32) || (c =? 127) then 92 :: 120 :: hex 2 c
  else if c <? 127 then [c]
  else if is_printable c then [c]
  else if c <=? 255 then 92 :: 120 :: hex 2 c
  else if c <=? 65535 then 92 :: 117 :: hex 4 c
  else 92 :: 85 :: hex 8 c.

(** [repr] of a [str]. *)
Definition repr_str (s : pystr) : pystr :=
  let q := if existsb (Z.eqb 39) s && negb (existsb (Z.eqb 34) s) then 34 else 39 in
  q :: List.concat (map (escape_char q) s) ++ [q].

Definition repr_int (n : Z) : pystr :=
  if n <? 0 then 45 :: digits (- n) else digits n.

(** *** [repr] of a float: the shortest round-tripping digit string *)

(** Is [n / d < 10 ^ E]? *)
Definition lt_pow10 (n : Z) (d : positive) (E : Z) : bool :=
  if 0 <=? E then n <? Zpos d * 10 ^ E else n * 10 ^ (- E) <? Zpos d.

(** The least [E >= E0] with [n / d < 10 ^ E]. *)
Fixpoint find_exp (fuel : nat) (n : Z) (d : positive) (E : Z) : Z :=
  match fuel with
  | O => E
  | S f => if lt_pow10 n d E then E else find_exp f n d (E + 1)
  end.

(** [n / d * 10 ^ k] as a fraction. *)
Definition scale (n : Z) (d : positive) (k : Z) : Z * positive :=
  if 0 <=? k then (n * 10 ^ k, d) else (n, (d * Z.to_pos (10 ^ (- k)))%positive).

(** Among the [len]-digit decimals [k * 10 ^ (E - len)] nearest to the
    finite float [x] below and above, the one that reads back as [x]
    (the nearer one when both do, the even one on a tie). *)
Definition try_len (x : F64.t) (s : bool) (n : Z) (d : positive) (E len : Z)
  : option Z :=
  let '(num, den) := scale n d (len - E) in
  let lo := num / Zpos den in
  let hi := if num mod Zpos den =? 0 then lo else lo + 1 in
  let ok k := (0 <? k) &&
    (let '(kn, kd) := scale k 1 (E - len) in F64.eqb (F64.of_q s kn kd) x) in
  match ok lo, ok hi with
  | true, true =>
      if lo =? hi then Some lo
      else match Z.compare (2 * num) ((lo + hi) * Zpos den) with
           | Lt => Some lo
           | Gt => Some hi
           | Eq => Some (if Z.even lo then lo else hi)
           end
  | true, false => Some lo
  | false, true => Some hi
  | false, false => None
  end.

Fixpoint shortest (fuel : nat) (x : F64.t) (s : bool) (n : Z) (d : positive)
  (E len : Z) : Z * Z :=
  match fuel with
  | O => (0, len)
  | S f =>
      match try_len x s n d E len with
      | Some k => (k, len)
      | None => shortest f x s n d E (len + 1)
      end
  end.

Fixpoint strip_zeros (ds : pystr) : pystr :=
  match ds with
  | [] => []
  | c :: r => match strip_zeros r with
              | [] => if c =? 48 then [] else [c]
              | r' => c :: r'
              end
  end.

Definition zeros (k : Z) : pystr := repeat 48 (Z.to_nat k).

(** CPython's [format_float_short] in [repr] mode: digits [ds] with the
    decimal point after position [decpt]. *)
Definition layout (ds : pystr) (decpt : Z) : pystr :=
  let n := Z.of_nat (List.length ds) in
  if (decpt <=? -4) || (16 <? decpt) then
    let e := decpt - 1 in
    let mant := match ds with
                | [] => []
                | [c] => [c]
                | c :: r => c :: 46 :: r
                end in
    let ed := digits (Z.abs e) in
    mant ++ [101; if e <? 0 then 45 else 43] ++
      (if Z.abs e <? 10 then 48 :: ed else ed)
  else if decpt <=? 0 then [48; 46] ++ zeros (- decpt) ++ ds
  else if n <=? decpt then ds ++ zeros (decpt - n) ++ [46; 48]
  else firstn (Z.to_nat decpt) ds ++ 46 :: skipn (Z.to_nat decpt) ds.

Definition repr_float (x : F64.t) : pystr :=
  match x with
  | S754_zero s => (if s then [45] else []) ++ [48; 46; 48]
  | S754_infinity s => (if s then [45] else []) ++ u "inf"
  | S754_nan => u "nan"
  | S754_finite s m e =>
      let '(n, d) := F64.abs_frac m e in
      let E := find_exp 700 n d (-324) in
      let '(k, len) := shortest 17 x s n d E 1 in
      let ds := digits k in
      let decpt := E + (Z.of_nat (List.length ds) - len) in
      (if s then [45] else []) ++ layout (strip_zeros ds) decpt
  end.

Fixpoint repr (v : pyval) : pystr :=
  match v with
  | PyNone => u "None"
  | PyBool b => if b then u "True" else u "False"
  | PyInt n => repr_int n
  | PyFloat f => repr_float f
  | PyStr s => repr_str s
  | PyList l => [91] ++ join (u ", ") (map repr l) ++ [93]
  | PyDict kv =>
      [123] ++ join (u ", ") (map (fun p => repr_str (fst p) ++ u ": " ++ repr (snd p)) kv)
        ++ [125]
  end.

End Repr.

(** [str(v)]. *)
Definition py_str (v : pyval) : pystr :=
  match v with
  | PyStr s => s
  | _ => Repr.repr v
  end.

(** ** [float()] on the strings [clean_number] builds *)

(** Split a string over decimal digits and ['.'] into the digit values
    before and after the (single) decimal point. *)
Fixpoint split_mantissa (cs : pystr) (ip fp : list Z) (seen_dot : bool)
  : option (list Z * list Z) :=
  match cs with
  | [] => Some (rev ip, rev fp)
  | c :: r =>
      if c =? 46 then
        if seen_dot then None else split_mantissa r ip fp true
      else
        match decimal_value c with
        | Some d =>
            if seen_dot then split_mantissa r ip (d :: fp) true
            else split_mantissa r (d :: ip) fp false
        | None => None
        end
  end.

Definition digits_value (ds : list Z) : Z :=
  fold_left (fun acc d => acc * 10 + d) ds 0.

(** [float(s)] for a string [s] over decimal digits, ['.'] and ['-'] (the
    characters left by [re.sub(r'[^\d.-]', '', ...)]): CPython accepts
    an optional sign followed by [digits], [digits.], [digits.digits] or
    [.digits], and returns the correctly rounded value ([inf] when it is
    too large); [None] stands for the [ValueError] of any other string. *)
Definition float_of_clean_str (s : pystr) : option F64.t :=
  let '(neg, body) := match s with
                      | 45 :: r => (true, r)
                      | _ => (false, s)
                      end in
  match split_mantissa body [] [] false with
  | Some ([], []) => None
  | Some (ip, fp) =>
      Some (F64.of_q neg (digits_value (ip ++ fp))
                     (Z.to_pos (10 ^ Z.of_nat (List.length fp))))
  | None => None
  end.

(** [float(n)] for an int: [OverflowError] when it rounds beyond the
    largest finite float. *)
Definition py_float_of_int (n : Z) : result F64.t :=
  match F64.of_Z n with
  | S754_infinity _ => Raise OverflowError
  | f => Ok f
  end.

(** The character class kept by [re.sub(r'[^\d.-]', '', ...)]. *)
Definition re_keep (c : Z) : bool := is_decimal c || (c =? 46) || (c =? 45).

(** [clean_number] (succes.py, lines 81-86).
<<
def clean_number(value):
    if not value: return 0.0
    if isinstance(value, (int, float)): return float(value)
    clean_str = re.sub(r'[^\d.-]', '', str(value))
    try: return float(clean_str)
    except: return 0.0
>>
    [bool] is a subclass of [int]. *)
Definition clean_number (value : pyval) : result F64.t :=
  if negb (truthy value) then Ok F64.zero
  else
    match value with
    | PyBool b => py_float_of_int (if b then 1 else 0)
    | PyInt n => py_float_of_int n
    | PyFloat f => Ok f
    | _ =>
        let clean_str := filter re_keep (py_str value) in
        match float_of_clean_str clean_str with
        | Some f => Ok f
        | None => Ok F64.zero
        end
    end.

(** ** [FINAL_COLUMNS] (succes.py, lines 20-48) *)

Definition FINAL_COLUMNS : list pystr := [
  u "Sr. No.";
  u "SB NO.";
  u "S/B Date";
  u "LEO Date";
  u "Customer Name";
  u "Final Invoice No.";
  u "SB – Solar / Other Goods";
  u "Port Code";
  u "Incoterms";
  u "Country";
  u "H.S. ITC (HS Code)";
  u "Product Group";
  u "Qty";
  u "Unit";
  u "FOB Value Declared by Us (S/B) in FC";
  u "Currency of Export";
  u "Custom Exchange Rate (in FC)";
  u "LEO Date Exchange Rate (in FC)";
  u "FOB Value as per SB in INR";
  u "FOB Value as per LEO Ex. Rate in INR";
  u "Scheme (ADV/DFIA/Drawback)";
  u "DBK %";
  u "Drawback Receivable on FOB";
  u "RoDTEP %";
  u "RoDTEP Receivable";
  u "RoDTEP Y/N";
  u "Balance RoDTEP"].

(** ** Numeric helpers of [flatten_to_excel_rows] *)

(** [x / y] on floats. *)
Definition py_truediv (x y : F64.t) : result F64.t :=
  if F64.is_zero y then Raise ZeroDivisionError else Ok (F64.div x y).

(** [round(v, 2)] on an int (returned unchanged) or a float. *)
Definition py_round2 (v : pyval) : result pyval :=
  match v with
  | PyBool b => Ok (PyInt (if b then 1 else 0))
  | PyInt n => Ok (PyInt n)
  | PyFloat f => Ok (PyFloat (F64.round2 f))
  | _ => Raise TypeError
  end.

(** [f"{x:.2f}"] on a float: fixed notation, two decimals, correctly
    rounded half to even on the exact value. *)
Definition fmt_2f (x : F64.t) : pystr :=
  match x with
  | S754_zero s => (if s then [45] else []) ++ u "0.00"
  | S754_infinity s => (if s then [45] else []) ++ u "inf"
  | S754_nan => u "nan"
  | S754_finite s m e =>
      let ds0 := digits (F64.hundredths m e) in
      let ds := repeat 48 (3 - List.length ds0) ++ ds0 in
      let n := (List.length ds - 2)%nat in
      (if s then [45] else []) ++ firstn n ds ++ 46 :: skipn n ds
  end.

(** [f"{v:.2f}"] on an int (converted to float first) or a float. *)
Definition py_format_2f (v : pyval) : result pystr :=
  match v with
  | PyBool b => Ok (fmt_2f (F64.of_Z (if b then 1 else 0)))
  | PyInt n => let* f := py_float_of_int n in Ok (fmt_2f f)
  | PyFloat f => Ok (fmt_2f f)
  | _ => Raise ValueError
  end.

(** [v.strip()]: only strings have a [strip] method. *)
Definition py_strip (v : pyval) : result pystr :=
  match v with
  | PyStr s => Ok (strip s)
  | _ => Raise AttributeError
  end.

(** ** [flatten_to_excel_rows] (succes.py, lines 166-216) *)

(** The quantities computed for one item (lines 184-187):
    [fob_fc], [rodtep_pct] and [dbk_pct], each a float or the int [0]. *)
Definition item_amounts (ex_rate fob_inr dbk_amt rodtep_amt : F64.t)
  : result (pyval * pyval * pyval) :=
  let* fob_fc :=
    if F64.gt0 ex_rate then let* q := py_truediv fob_inr ex_rate in Ok (PyFloat q)
    else Ok (PyInt 0) in
  let* rodtep_pct :=
    if F64.gt0 fob_inr then
      let* q := py_truediv rodtep_amt fob_inr in Ok (PyFloat (F64.mul q (F64.of_Z 100)))
    else Ok (PyInt 0) in
  let* dbk_pct :=
    if F64.gt0 fob_inr then
      let* q := py_truediv dbk_amt fob_inr in Ok (PyFloat (F64.mul q (F64.of_Z 100)))
    else Ok (PyInt 0) in
  Ok (fob_fc, rodtep_pct, dbk_pct).

(** The body of [for item in items:] (lines 179-215): the row of one item,
    a dict (keys in insertion order).  The dict literal's values are
    evaluated left to right. *)
Definition row := list (pystr * pyval).

Definition flatten_item (header inv : pyval) (ex_rate : F64.t) (currency : pyval)
  (item : pyval) : result row :=
  let* v := py_get item (u "FOB Value as per SB in INR") PyNone in
  let* fob_inr := clean_number v in
  let* v := py_get item (u "Qty") PyNone in
  let* qty := clean_number v in
  let* v := py_get item (u "DRAWBACK Receivable on fob") PyNone in
  let* dbk_amt := clean_number v in
  let* v := py_get item (u "RoDTEP RECEIVABLE") PyNone in
  let* rodtep_amt := clean_number v in
  let* amounts := item_amounts ex_rate fob_inr dbk_amt rodtep_amt in
  let '(fob_fc, rodtep_pct, dbk_pct) := amounts in
  let* v := py_get item (u "PRODUCT GROUP") (PyStr []) in
  let* description := py_strip v in
  let final_scheme := u "DRAWBACK" in
  let product_group_val := description in
  let sb_type := description in
  let* sb_no := py_get header (u "SB NO.") (PyStr []) in
  let* sb_date := py_get header (u "S/B Date") (PyStr []) in
  let* leo_date := py_get header (u "LEO Date") (PyStr []) in
  let* customer := py_get header (u "CUSTOMER NAME") (PyStr []) in
  let* invoice_no := py_get inv (u "FINAL INVOICE NO") (PyStr []) in
  let* port_code := py_get header (u "PORT CODE") (PyStr []) in
  let* incoterms := py_get inv (u "INCOTERMS") (PyStr []) in
  let* country := py_get header (u "COUNTRY") (PyStr []) in
  let* hs_code := py_get item (u "H.S. Itch code") (PyStr []) in
  let* unit := py_get item (u "Unit") (PyStr []) in
  let* fob_fc_r := py_round2 fob_fc in
  let* fob_inr_r1 := py_round2 (PyFloat fob_inr) in
  let* fob_inr_r2 := py_round2 (PyFloat fob_inr) in
  let* dbk_pct_s := py_format_2f dbk_pct in
  let* dbk_amt_r := py_round2 (PyFloat dbk_amt) in
  let* rodtep_pct_s := py_format_2f rodtep_pct in
  let* rodtep_amt_r1 := py_round2 (PyFloat rodtep_amt) in
  let* rodtep_amt_r2 := py_round2 (PyFloat rodtep_amt) in
  Ok [
    (u "Sr. No.", PyStr []); (u "SB NO.", sb_no); (u "S/B Date", sb_date);
    (u "LEO Date", leo_date); (u "Customer Name", customer);
    (u "Final Invoice No.", invoice_no);
    (u "SB – Solar / Other Goods", PyStr sb_type);
    (u "Port Code", port_code); (u "Incoterms", incoterms);
    (u "Country", country); (u "H.S. ITC (HS Code)", hs_code);
    (u "Product Group", PyStr product_group_val);
    (u "Qty", PyFloat qty); (u "Unit", unit);
    (u "FOB Value Declared by Us (S/B) in FC", fob_fc_r);
    (u "Currency of Export", currency);
    (u "Custom Exchange Rate (in FC)", PyFloat ex_rate);
    (u "LEO Date Exchange Rate (in FC)", PyFloat ex_rate);
    (u "FOB Value as per SB in INR", fob_inr_r1);
    (u "FOB Value as per LEO Ex. Rate in INR", fob_inr_r2);
    (u "Scheme (ADV/DFIA/Drawback)", PyStr final_scheme);
    (u "DBK %", PyStr dbk_pct_s); (u "Drawback Receivable on FOB", dbk_amt_r);
    (u "RoDTEP %", PyStr rodtep_pct_s);
    (u "RoDTEP Receivable", rodtep_amt_r1);
    (u "RoDTEP Y/N", PyStr (if F64.gt0 rodtep_amt then u "Yes" else u "No"));
    (u "Balance RoDTEP", rodtep_amt_r2)].

(** The body of [for inv in invoices:] (lines 172-215).  [item_count] is
    computed (so [len(items)] is evaluated) but not used afterwards. *)
Definition flatten_invoice (header inv : pyval) : result (list row) :=
  let* items := py_get inv (u "items") (PyList []) in
  let* n := py_len items in
  let item_count := if 0 <? n then n else 1 in
  let* v := py_get inv (u "Custom Exchange Rate in FC") PyNone in
  let* ex_rate := clean_number v in
  let* currency := py_get inv (u "Currency of export") (PyStr (u "USD")) in
  let* its := py_iter items in
  mapM (flatten_item header inv ex_rate currency) its.

Definition flatten_to_excel_rows (hierarchical_data : pyval) : result (list row) :=
  let* header := py_get hierarchical_data (u "shipping_bill_header") (PyDict []) in
  let* invoices := py_get hierarchical_data (u "invoices") (PyList []) in
  let* invs := py_iter invoices in
  let* rowss := mapM (flatten_invoice header) invs in
  Ok (List.concat rowss).

(** ** Record assembly: the data part of [process_files] (lines 398-418)

    A pandas [DataFrame] is its column labels and its rows, each row listing
    one cell per column.  Each column is stored with one dtype, inferred
    from all of its values when the frame is built (pandas 2.x with its
    default options); a cell holds its value as converted to that dtype. *)

Record frame := {
  columns : list pystr;
  rows : list (list pyval)
}.

Definition NaN : pyval := PyFloat S754_nan.

Definition mem (c : pystr) (cs : list pystr) : bool := existsb (pystr_eqb c) cs.

(** Column labels of [pd.DataFrame(records)] for a list of dicts: every key,
    in order of first appearance. *)
Definition add_keys (cols ks : list pystr) : list pystr :=
  fold_left (fun cols k => if mem k cols then cols else cols ++ [k]) ks cols.

Definition record_columns (records : list row) : list pystr :=
  fold_left (fun cols (r : row) => add_keys cols (map fst r)) records [].

(** The value of column [c] for one record: [NaN] when the record lacks
    the key ([lib.dicts_to_array]). *)
Definition record_get (r : row) (c : pystr) : pyval :=
  match dict_lookup r c with
  | Some v => v
  | None => NaN
  end.

(** The flags [lib.maybe_convert_objects] sets while scanning an object
    column ([Seen] in [pandas/_libs/lib.pyx]). *)
Record seen := mk_seen {
  null_ : bool; nan_ : bool; bool_ : bool; float_ : bool;
  int_ : bool; sint_ : bool; uint_ : bool; object_ : bool
}.

Definition seen0 : seen := mk_seen false false false false false false false false.

Definition saw_null (s : seen) : seen :=
  mk_seen true (nan_ s) (bool_ s) (float_ s) (int_ s) (sint_ s) (uint_ s) (object_ s).
Definition saw_nan (s : seen) : seen :=
  mk_seen (null_ s) true (bool_ s) (float_ s) (int_ s) (sint_ s) (uint_ s) (object_ s).
Definition saw_bool (s : seen) : seen :=
  mk_seen (null_ s) (nan_ s) true (float_ s) (int_ s) (sint_ s) (uint_ s) (object_ s).
Definition saw_float (s : seen) : seen :=
  mk_seen (null_ s) (nan_ s) (bool_ s) true (int_ s) (sint_ s) (uint_ s) (object_ s).
Definition saw_object (s : seen) : seen :=
  mk_seen (null_ s) (nan_ s) (bool_ s) (float_ s) (int_ s) (sint_ s) (uint_ s) true.
(** [seen.int_ = True] alone, the branch taken once a null was seen. *)
Definition saw_int_flag (s : seen) : seen :=
  mk_seen (null_ s) (nan_ s) (bool_ s) (float_ s) true (sint_ s) (uint_ s) (object_ s).

Definition INT64_MIN : Z := - 2 ^ 63.
Definition INT64_MAX : Z := 2 ^ 63 - 1.
Definition UINT64_MAX : Z := 2 ^ 64 - 1.

(** [Seen.saw_int(val)]. *)
Definition saw_int (n : Z) (s : seen) : seen :=
  mk_seen (null_ s) (nan_ s) (bool_ s) (float_ s) true
    (sint_ s || ((INT64_MIN <=? n) && (n <? 0)))
    (uint_ s || ((INT64_MAX <? n) && (n <=? UINT64_MAX)))
    (object_ s).

(** The scanning loop of [maybe_convert_objects] (with [convert_numeric]):
    [None] and [nan] mark a missing value, an int is first converted to a
    float ([floats[i] = <float64_t>val], which raises [OverflowError]
    beyond the float range), a string, list or dict ends the scan as an
    object column, as does an int outside the int64 and uint64 ranges or
    ints of both ranges once no null was seen. *)
Fixpoint scan_objects (s : seen) (vals : list pyval) : result seen :=
  match vals with
  | [] => Ok s
  | v :: rest =>
      match v with
      | PyNone => scan_objects (saw_null s) rest
      | PyFloat S754_nan => scan_objects (saw_nan s) rest
      | PyFloat _ => scan_objects (saw_float s) rest
      | PyBool _ => scan_objects (saw_bool s) rest
      | PyInt n =>
          let* _ := py_float_of_int n in
          if null_ s then scan_objects (saw_int_flag s) rest
          else
            let s := saw_int n s in
            if (uint_ s && sint_ s) || (UINT64_MAX <? n) || (n <? INT64_MIN)
            then Ok (saw_object s)
            else scan_objects s rest
      | PyStr _ | PyList _ | PyDict _ => Ok (saw_object s)
      end
  end.

Inductive dtype := DtObject | DtBool | DtInt | DtFloat.

(** The array [maybe_convert_objects] returns: [bools] when only bools
    were seen, otherwise [objects] once a bool or an object was seen;
    with a missing value, [floats] for floats, ints or [nan], [objects]
    for [None] alone; without one, [floats], then [ints] / [uints].  The
    second pass ([maybe_infer_to_datetimelike]) returns an object column
    of these values unchanged. *)
Definition result_dtype (s : seen) : dtype :=
  let numeric := float_ s || int_ s in
  let is_bool_or_na := negb (numeric || object_ s) in
  if bool_ s && is_bool_or_na && negb (nan_ s || null_ s) then DtBool
  else if object_ s || bool_ s then DtObject
  else if null_ s || nan_ s then
    (if float_ s || int_ s || uint_ s || nan_ s then DtFloat else DtObject)
  else if float_ s then DtFloat
  else if int_ s || uint_ s then DtInt
  else DtObject.

Definition column_dtype (vals : list pyval) : result dtype :=
  let* s := scan_objects seen0 vals in Ok (result_dtype s).

(** A value as stored in a column of the given dtype: a float64 column
    holds ints as floats and [None] as [NaN]; int, bool and object columns
    keep the value. *)
Definition cast (dt : dtype) (v : pyval) : pyval :=
  match dt, v with
  | DtFloat, PyInt n => PyFloat (F64.of_Z n)
  | DtFloat, PyNone => NaN
  | _, _ => v
  end.

(** [pd.DataFrame(records)]: the columns in order of first appearance,
    each converted to the dtype inferred from its values. *)
Definition frame_of_records (records : list row) : result frame :=
  let cols := record_columns records in
  let* dts := mapM (fun c => column_dtype (map (fun r => record_get r c) records)) cols in
  Ok {| columns := cols;
        rows := map (fun r => map (fun '(c, dt) => cast dt (record_get r c))
                                  (combine cols dts)) records |}.

(** The cell of column [c] in a row laid out along [cols]. *)
Fixpoint cell (cols : list pystr) (r : list pyval) (c : pystr) : option pyval :=
  match cols, r with
  | k :: cols', v :: r' => if pystr_eqb k c then Some v else cell cols' r' c
  | _, _ => None
  end.

(** [df[cols]] for a list of labels of [df]. *)
Definition select (df : frame) (sel : list pystr) : frame :=
  {| columns := sel;
     rows := map (fun r => map (fun c => match cell (columns df) r c with
                                        | Some v => v
                                        | None => NaN
                                        end) sel) (rows df) |}.

Fixpoint set_cell (cols : list pystr) (r : list pyval) (c : pystr) (v : pyval)
  : list pyval :=
  match cols, r with
  | k :: cols', x :: r' => if pystr_eqb k c then v :: r' else x :: set_cell cols' r' c v
  | _, _ => r
  end.

(** [df[c] = vals] with one value per row: an existing column is
    overwritten in place, a new one is appended as the last column. *)
Definition set_column (df : frame) (c : pystr) (vals : list pyval) : frame :=
  if mem c (columns df) then
    {| columns := columns df;
       rows := map (fun '(r, v) => set_cell (columns df) r c v) (combine (rows df) vals) |}
  else
    {| columns := columns df ++ [c];
       rows := map (fun '(r, v) => r ++ [v]) (combine (rows df) vals) |}.

(** [range(1, n + 1)]. *)
Definition range1 (n : nat) : list pyval := map (fun i => PyInt (Z.of_nat i)) (seq 1 n).

(** What one uploaded file contributes: [None] when [extract_pdf_text]
    returned no text or [get_hierarchical_json] returned [None]; otherwise
    the parsed JSON value. *)
Definition upload := option pyval.

(** The loop of lines 401-410: [all_data.extend(rows)] for each file whose
    [json_data] is truthy. *)
Fixpoint collect (uploads : list upload) : result (list row) :=
  match uploads with
  | [] => Ok []
  | up :: rest =>
      let* rows :=
        match up with
        | Some json_data =>
            if truthy json_data then flatten_to_excel_rows json_data else Ok []
        | None => Ok []
        end in
      let* more := collect rest in
      Ok (rows ++ more)
  end.

(** Lines 414-418: [None] is the "No data could be extracted" branch. *)
Definition assemble (all_data : list row) : result (option frame) :=
  match all_data with
  | [] => Ok None
  | _ =>
      let* df := frame_of_records all_data in
      let safe_columns := filter (fun c => mem c (columns df)) FINAL_COLUMNS in
      let df := select df safe_columns in
      Ok (Some (set_column df (u "Sr. No.") (range1 (List.length (rows df)))))
  end.

Definition process_files (uploads : list upload) : result (option frame) :=
  let* all_data := collect uploads in
  assemble all_data.

(** The header fields copied into every row: the key read from
    [shipping_bill_header] and the column it fills. *)
Definition header_fields : list (pystr * pystr) := [
  (u "SB NO.", u "SB NO.");
  (u "S/B Date", u "S/B Date");
  (u "LEO Date", u "LEO Date");
  (u "CUSTOMER NAME", u "Customer Name");
  (u "PORT CODE", u "Port Code");
  (u "COUNTRY", u "Country")].

(** Uploads whose JSON reaches [flatten_to_excel_rows], in order. *)
Fixpoint included (uploads : list upload) : list pyval :=
  match uploads with
  | [] => []
  | Some j :: rest => if truthy j then j :: included rest else included rest
  | None :: rest => included rest
  end.

Definition is_int (v : pyval) : bool :=
  match v with PyInt _ => true | _ => false end.

(** Values [clean_number] passes through [str()] and [re.sub]. *)
Definition is_text (v : pyval) : bool :=
  match v with PyStr _ | PyList _ | PyDict _ => true | _ => false end.

(** ** What the loops of [flatten_to_excel_rows] visit *)

(** The items [for item in items:] visits for one invoice (lines 172 and
    178). *)
Definition invoice_items (inv : pyval) : result (list pyval) :=
  let* items := py_get inv (u "items") (PyList []) in
  py_iter items.

(** The item lists of the invoices [for inv in invoices:] visits (lines
    169 and 171). *)
Definition document_items (hierarchical_data : pyval) : result (list (list pyval)) :=
  let* invoices := py_get hierarchical_data (u "invoices") (PyList []) in
  let* invs := py_iter invoices in
  mapM invoice_items invs.

(** ** [get_hierarchical_json]: cleaning the model's reply (lines 155-157) *)

Fixpoint prefixb (p s : pystr) : bool :=
  match p, s with
  | [], _ => true
  | a :: p', b :: s' => (a =? b) && prefixb p' s'
  | _ :: _, [] => false
  end.

(** The left-to-right scan of [str.replace] for a nonempty [old]: [skip]
    counts the characters of a match still to be dropped. *)
Fixpoint replace_scan (old new s : pystr) (skip : nat) : pystr :=
  match s with
  | [] => []
  | c :: r =>
      match skip with
      | S k => replace_scan old new r k
      | O =>
          if prefixb old s then new ++ replace_scan old new r (List.length old - 1)
          else c :: replace_scan old new r O
      end
  end.

(** [s.replace(old, new)]: every non-overlapping occurrence of [old], from
    the left; an empty [old] matches before every character and at the end. *)
Definition py_replace (s old new : pystr) : pystr :=
  match old with
  | [] => new ++ List.concat (map (fun c => c :: new) s)
  | _ => replace_scan old new s O
  end.

(** [content.replace("```json", "").replace("```", "").strip()]: the text
    handed to [json.loads]. *)
Definition clean_reply (content : pystr) : pystr :=
  strip (py_replace (py_replace content (u "```json") []) (u "```") []).

(** ** [format_inr] (lines 218-221) *)

(** [|x| * 10^k] rounded half to even on the exact binary value. *)
Definition scaled (k : nat) (m : positive) (e : Z) : Z :=
  let '(n, d) := F64.abs_frac m e in F64.div_round_even (10 ^ Z.of_nat k * n) d.

(** [f"{x:.kf}"] on a float: fixed notation with [k] decimals (no point
    when [k = 0]), correctly rounded half to even on the exact value. *)
Definition fmt_fixed (k : nat) (x : F64.t) : pystr :=
  let sign (s : bool) : pystr := if s then [45] else [] in
  let layout (s : bool) (n : Z) : pystr :=
    let ds0 := digits n in
    let ds := repeat 48 (S k - List.length ds0) ++ ds0 in
    let i := (List.length ds - k)%nat in
    sign s ++ firstn i ds ++ (match k with O => [] | S _ => 46 :: skipn i ds end) in
  match x with
  | S754_zero s => layout s 0
  | S754_infinity s => sign s ++ u "inf"
  | S754_nan => u "nan"
  | S754_finite s m e => layout s (scaled k m e)
  end.

(** [format_inr(value)] on a float (the column sums it is called with are
    floats); [>=] is false on NaN. *)
Definition format_inr (value : F64.t) : pystr :=
  if SFleb (F64.of_Z 1000000) value then
    u "₹" ++ fmt_fixed 1 (F64.div value (F64.of_Z 1000000)) ++ u "M"
  else if SFleb (F64.of_Z 1000) value then
    u "₹" ++ fmt_fixed 1 (F64.div value (F64.of_Z 1000)) ++ u "K"
  else u "₹" ++ fmt_fixed 0 value.

(** * Properties *)

(** ** General lemmas *)

Lemma pystr_eqb_eq (a b : pystr) : pystr_eqb a b = true <-> a = b.
Proof.
  revert b; induction a as [|x a IH]; intros [|y b]; simpl; try (split; congruence).
  rewrite andb_true_iff, Z.eqb_eq, IH. split.
  - intros [-> ->]; reflexivity.
  - intros H; inversion H; auto.
Qed.

Lemma pystr_eqb_refl (a : pystr) : pystr_eqb a a = true.
Proof. apply pystr_eqb_eq; reflexivity. Qed.

Lemma bind_Ok {A B} (m : result A) (f : A -> result B) (b : B) :
  bind m f = Ok b -> exists a, m = Ok a /\ f a = Ok b.
Proof. destruct m as [a|e]; simpl; [eauto | discriminate]. Qed.

Lemma mapM_Forall2 {A B} (f : A -> result B) (l : list A) (ys : list B) :
  mapM f l = Ok ys -> Forall2 (fun x y => f x = Ok y) l ys.
Proof.
  revert ys; induction l as [|x l IH]; simpl; intros ys H.
  - inversion H; constructor.
  - apply bind_Ok in H as (y & Hy & H).
    apply bind_Ok in H as (ys' & Hys & H).
    inversion H; subst; constructor; auto.
Qed.

Lemma Forall2_In_r {A B} (P : A -> B -> Prop) l1 l2 y :
  Forall2 P l1 l2 -> In y l2 -> exists x, In x l1 /\ P x y.
Proof.
  induction 1 as [|x y' l1 l2 Hxy _ IH]; simpl; [tauto|].
  intros [<- | Hin]; [eauto | destruct (IH Hin) as (x' & ? & ?); eauto].
Qed.

Lemma in_concat_Forall2 {A B} (P : A -> list B -> Prop) l1 l2 y :
  Forall2 P l1 l2 -> In y (List.concat l2) -> exists x ys, In x l1 /\ P x ys /\ In y ys.
Proof.
  intros H Hin. apply in_concat in Hin as (ys & Hys & Hy).
  destruct (Forall2_In_r _ _ _ _ H Hys) as (x & Hx & Hp). eauto.
Qed.

(** Inverting a chain of [let*] that returned [Ok]. *)
Ltac bind_ok H :=
  repeat match type of H with
  | bind ?m _ = Ok _ =>
      let E := fresh "E" in
      destruct m eqn:E; cbn beta iota zeta delta [bind] in H; [ | discriminate H ]
  | (let '(_, _) := ?p in _) = Ok _ => destruct p
  end.

(** Every row [flatten_item] emits has the keys of [FINAL_COLUMNS], in order. *)
Lemma flatten_item_keys header inv ex_rate currency item r :
  flatten_item header inv ex_rate currency item = Ok r -> map fst r = FINAL_COLUMNS.
Proof.
  unfold flatten_item; intros H; bind_ok H.
  inversion H; subst; reflexivity.
Qed.

Lemma flatten_invoice_inv header inv rs :
  flatten_invoice header inv = Ok rs ->
  exists ex_rate currency its,
    py_get inv (u "Currency of export") (PyStr (u "USD")) = Ok currency /\
    Forall2 (fun it r => flatten_item header inv ex_rate currency it = Ok r) its rs.
Proof.
  unfold flatten_invoice; intros H; bind_ok H.
  do 3 eexists; split; [first [reflexivity | eassumption] | apply mapM_Forall2; eassumption].
Qed.

Lemma flatten_to_excel_rows_inv j rs :
  flatten_to_excel_rows j = Ok rs ->
  exists header invs rss,
    py_get j (u "shipping_bill_header") (PyDict []) = Ok header /\
    Forall2 (fun inv rs_i => flatten_invoice header inv = Ok rs_i) invs rss /\
    rs = List.concat rss.
Proof.
  unfold flatten_to_excel_rows; intros H; bind_ok H.
  inversion H; subst.
  do 3 eexists; split; [first [reflexivity | eassumption] | split; [apply mapM_Forall2; eassumption | reflexivity]].
Qed.

(** Every row of [flatten_to_excel_rows] is the row of one item of one invoice. *)
Lemma flatten_row_origin j rs r :
  flatten_to_excel_rows j = Ok rs -> In r rs ->
  exists header inv ex_rate currency item,
    py_get j (u "shipping_bill_header") (PyDict []) = Ok header /\
    py_get inv (u "Currency of export") (PyStr (u "USD")) = Ok currency /\
    flatten_item header inv ex_rate currency item = Ok r.
Proof.
  intros H Hin.
  destruct (flatten_to_excel_rows_inv _ _ H) as (header & invs & rss & Hh & Hf & ->).
  destruct (in_concat_Forall2 _ _ _ _ Hf Hin) as (inv & rs_i & _ & Hi & Hr).
  destruct (flatten_invoice_inv _ _ _ Hi) as (ex_rate & currency & its & Hc & Hits).
  destruct (Forall2_In_r _ _ _ _ Hits Hr) as (item & _ & Hitem).
  exists header, inv, ex_rate, currency, item; auto.
Qed.

Lemma flatten_item_fields header inv ex_rate currency item r :
  flatten_item header inv ex_rate currency item = Ok r ->
  dict_lookup r (u "FOB Value as per LEO Ex. Rate in INR") =
    dict_lookup r (u "FOB Value as per SB in INR") /\
  dict_lookup r (u "LEO Date Exchange Rate (in FC)") = Some (PyFloat ex_rate) /\
  dict_lookup r (u "Custom Exchange Rate (in FC)") = Some (PyFloat ex_rate) /\
  dict_lookup r (u "Currency of Export") = Some currency /\
  Forall (fun '(hk, col) => exists v, py_get header hk (PyStr []) = Ok v /\
                                      dict_lookup r col = Some v) header_fields.
Proof.
  unfold flatten_item; intros H; bind_ok H.
  inversion H; subst; clear H.
  vm_compute.
  repeat split; try congruence.
  repeat constructor; eexists; split; eassumption || reflexivity.
Qed.

Lemma gt0_nonzero (x : F64.t) : F64.gt0 x = true -> F64.is_zero x = false.
Proof. destruct x; try reflexivity; discriminate. Qed.

Lemma Forall2_Forall_r {A B} (P : A -> B -> Prop) (Q : B -> Prop) l1 l2 :
  Forall2 P l1 l2 -> (forall x y, P x y -> Q y) -> Forall Q l2.
Proof. induction 1; constructor; eauto. Qed.

(** ** Concrete inputs *)

(** End-to-end scenario 1 of the specification: one invoice (rate 83.0,
    currency "USD") with one item (FOB 830000 INR, quantity 100, drawback
    8300, RoDTEP 4150). *)
Definition scenario_item : pyval := PyDict [
  (u "H.S. Itch code", PyStr (u "85414300"));
  (u "PRODUCT GROUP", PyStr (u " Solar PV Module 540 Wp "));
  (u "Qty", PyInt 100);
  (u "Unit", PyStr (u "NOS"));
  (u "FOB Value as per SB in INR", PyInt 830000);
  (u "DRAWBACK Receivable on fob", PyInt 8300);
  (u "RoDTEP RECEIVABLE", PyInt 4150)].

Definition scenario_invoice_kv : list (pystr * pyval) := [
  (u "FINAL INVOICE NO", PyStr (u "EXP/24-25/001"));
  (u "INCOTERMS", PyStr (u "FOB"));
  (u "Currency of export", PyStr (u "USD"));
  (u "Custom Exchange Rate in FC", PyFloat (F64.of_q false 830 10));
  (u "items", PyList [scenario_item])].

Definition scenario_doc : pyval := PyDict [
  (u "shipping_bill_header", PyDict [
     (u "SB NO.", PyStr (u "1234567"));
     (u "S/B Date", PyStr (u "02-MAY-2025"));
     (u "LEO Date", PyStr (u "10-MAY-2025"));
     (u "PORT CODE", PyStr (u "INMUN1"));
     (u "CUSTOMER NAME", PyStr (u "ACME SOLAR LLC"));
     (u "COUNTRY", PyStr (u "USA"))]);
  (u "invoices", PyList [PyDict scenario_invoice_kv])].

(** An invoice whose [items] list is empty. *)
Definition empty_items_doc : pyval := PyDict [
  (u "shipping_bill_header", PyDict [(u "SB NO.", PyStr (u "1234567"))]);
  (u "invoices", PyList [PyDict [
     (u "FINAL INVOICE NO", PyStr (u "EXP/24-25/002"));
     (u "Currency of export", PyStr (u "USD"));
     (u "Custom Exchange Rate in FC", PyFloat (F64.of_q false 830 10));
     (u "items", PyList [])]])].

(** An invoice whose currency is present but empty. *)
Definition empty_currency_doc : pyval := PyDict [
  (u "invoices", PyList [PyDict [
     (u "Currency of export", PyStr []);
     (u "items", PyList [PyDict [(u "Qty", PyInt 1)]])]])].

(** Two documents with one item each: the first with "SB NO." the int
    1234567 and no exchange rate, the second with "SB NO." null and the
    invoice of [scenario_doc]. *)
Definition sb_int_doc : pyval := PyDict [
  (u "shipping_bill_header", PyDict [(u "SB NO.", PyInt 1234567)]);
  (u "invoices", PyList [PyDict [
     (u "FINAL INVOICE NO", PyStr (u "EXP/24-25/003"));
     (u "items", PyList [scenario_item])]])].

Definition sb_null_doc : pyval := PyDict [
  (u "shipping_bill_header", PyDict [(u "SB NO.", PyNone)]);
  (u "invoices", PyList [PyDict scenario_invoice_kv])].

(** ** C1: rows per invoice *)

(** C1 (code defect): the specification promises [max(1, k)] rows for an
    invoice with [k] items, an empty [items] list standing for one virtual
    item.  [flatten_to_excel_rows] computes [item_count] to that end but
    loops over [items] itself, so an invoice with no items yields no row. *)
Theorem flatten_empty_items_no_row : flatten_to_excel_rows empty_items_doc = Ok [].
Proof. vm_compute. reflexivity. Qed.

(** ** C2: totality and finiteness of [clean_number] *)

(** C2 (counterexample): [clean_number] does not always return a finite
    float: the floats [inf] and [nan] (which [json.loads] produces from
    [Infinity] and [NaN]) are returned as they are, and a string of 400
    nines parses to [inf]. *)
Theorem clean_number_not_always_finite :
  clean_number (PyFloat (S754_infinity false)) = Ok (S754_infinity false) /\
  clean_number (PyFloat S754_nan) = Ok S754_nan /\
  clean_number (PyStr (repeat 57 400)) = Ok (S754_infinity false).
Proof. vm_compute. repeat split. Qed.

(** C2 (as amended): on every input other than an [int], [clean_number]
    returns without raising; absent or falsy input gives [0.0]; a float is
    returned as it is; a string (or a list or dict, through [str()]) gives
    the parse of its digits, points and minus signs, or [0.0] when that
    parse fails. *)
Theorem clean_number_total_off_int (v : pyval) :
  is_int v = false ->
  exists f, clean_number v = Ok f /\
    (truthy v = false -> f = F64.zero) /\
    (forall g, v = PyFloat g -> truthy v = true -> f = g) /\
    (truthy v = true -> is_text v = true ->
       f = match float_of_clean_str (filter re_keep (py_str v)) with
           | Some g => g
           | None => F64.zero
           end).
Proof.
  intros Hint; unfold clean_number.
  destruct (truthy v) eqn:Ht; simpl.
  - destruct v; simpl in Hint |- *; try discriminate.
    + (* PyBool *) destruct b; [|discriminate].
      eexists; split; [reflexivity|]; repeat split; discriminate.
    + eexists; split; [reflexivity|]; repeat split; try discriminate.
      intros g Hg _; inversion Hg; reflexivity.
    + (* PyStr, PyList, PyDict *)
      destruct (float_of_clean_str _) eqn:Hp;
        eexists; split; try reflexivity; repeat split; try discriminate;
        intros _ _; simpl; rewrite Hp; reflexivity.
    + destruct (float_of_clean_str _) eqn:Hp;
        eexists; split; try reflexivity; repeat split; try discriminate;
        intros _ _; simpl; rewrite Hp; reflexivity.
    + destruct (float_of_clean_str _) eqn:Hp;
        eexists; split; try reflexivity; repeat split; try discriminate;
        intros _ _; simpl; rewrite Hp; reflexivity.
  - exists F64.zero; split; [reflexivity|]; repeat split; discriminate.
Qed.

(** ** C3: currency of export *)

(** C3 (counterexample): an invoice whose ["Currency of export"] is the
    empty string yields rows whose "Currency of Export" is the empty
    string, not ["USD"]. *)
Theorem currency_empty_not_defaulted :
  exists r, flatten_to_excel_rows empty_currency_doc = Ok [r] /\
    dict_lookup r (u "Currency of Export") = Some (PyStr []).
Proof. eexists; split; vm_compute; reflexivity. Qed.

(** C3 (as amended): every row of an invoice carries, as "Currency of
    Export", the invoice's ["Currency of export"] value whenever the key is
    present (whatever the value, empty or null included), and ["USD"]
    exactly when the key is absent. *)
Theorem flatten_invoice_currency (header : pyval) (kv : list (pystr * pyval))
  (rs : list row) :
  flatten_invoice header (PyDict kv) = Ok rs ->
  Forall (fun r => dict_lookup r (u "Currency of Export") =
                   Some (match dict_lookup kv (u "Currency of export") with
                         | Some v => v
                         | None => PyStr (u "USD")
                         end)) rs.
Proof.
  intros H.
  destruct (flatten_invoice_inv _ _ _ H) as (ex_rate & currency & its & Hc & Hits).
  simpl in Hc; inversion Hc; subst currency.
  apply (Forall2_Forall_r _ _ _ _ Hits).
  intros item r Hr. apply flatten_item_fields in Hr. tauto.
Qed.

(** ** C4: guarded divisions *)

(** C4: the divisions of [flatten_to_excel_rows] never raise: with a zero
    exchange rate [fob_fc] is the int [0] (and the row's "FOB Value
    Declared by Us (S/B) in FC" is [0]); with a zero [fob_inr] both
    [dbk_pct] and [rodtep_pct] are [0] (and the row shows "0.00" for both
    percentages), whatever the other amounts. *)
Theorem flatten_division_safe :
  (forall ex_rate fob_inr dbk_amt rodtep_amt,
     exists fob_fc rodtep_pct dbk_pct,
       item_amounts ex_rate fob_inr dbk_amt rodtep_amt = Ok (fob_fc, rodtep_pct, dbk_pct) /\
       (F64.is_zero ex_rate = true -> fob_fc = PyInt 0) /\
       (F64.is_zero fob_inr = true -> dbk_pct = PyInt 0 /\ rodtep_pct = PyInt 0)) /\
  (forall header inv ex_rate currency item r,
     flatten_item header inv ex_rate currency item = Ok r ->
     (F64.is_zero ex_rate = true ->
        dict_lookup r (u "FOB Value Declared by Us (S/B) in FC") = Some (PyInt 0)) /\
     (forall v fob_inr,
        py_get item (u "FOB Value as per SB in INR") PyNone = Ok v ->
        clean_number v = Ok fob_inr -> F64.is_zero fob_inr = true ->
        dict_lookup r (u "DBK %") = Some (PyStr (u "0.00")) /\
        dict_lookup r (u "RoDTEP %") = Some (PyStr (u "0.00")))).
Proof.
  assert (Hamt : forall ex_rate fob_inr dbk_amt rodtep_amt,
     exists fob_fc rodtep_pct dbk_pct,
       item_amounts ex_rate fob_inr dbk_amt rodtep_amt = Ok (fob_fc, rodtep_pct, dbk_pct) /\
       (F64.is_zero ex_rate = true -> fob_fc = PyInt 0) /\
       (F64.is_zero fob_inr = true -> dbk_pct = PyInt 0 /\ rodtep_pct = PyInt 0)).
  { intros ex_rate fob_inr dbk_amt rodtep_amt; unfold item_amounts, py_truediv.
    destruct (F64.gt0 ex_rate) eqn:G1;
      [rewrite (gt0_nonzero _ G1) | ];
      (destruct (F64.gt0 fob_inr) eqn:G2;
        [rewrite (gt0_nonzero _ G2) | ]);
      cbn [bind]; do 3 eexists; (split; [reflexivity|]);
      (split; intros Hz;
        [ first [discriminate Hz | reflexivity]
        | first [discriminate Hz | split; reflexivity] ]). }
  split; [exact Hamt|].
  intros header inv ex_rate currency item r H.
  unfold flatten_item in H; bind_ok H.
  inversion H; subst; clear H.
  destruct (Hamt ex_rate a0 a4 a6) as (fob_fc & rp & dp & Ha & Hz1 & Hz2).
  rewrite Ha in E7; inversion E7; subst.
  split.
  - intros Hz; specialize (Hz1 Hz); subst.
    match goal with Hr : py_round2 (PyInt 0) = Ok _ |- _ =>
      simpl in Hr; inversion Hr; subst end.
    vm_compute; reflexivity.
  - intros v fob Hv Hc Hz.
    inversion Hv; subst.
    rewrite E0 in Hc; inversion Hc; subst.
    destruct (Hz2 Hz); subst.
    repeat match goal with Hf : py_format_2f (PyInt 0) = Ok _ |- _ =>
      vm_compute in Hf; inversion Hf; subst; clear Hf end.
    vm_compute; split; reflexivity.
Qed.

(** ** C5: end-to-end scenario 1 *)

(** C5: on scenario 1 (rate 83.0, FOB 830000 INR, drawback 8300, RoDTEP
    4150) [flatten_to_excel_rows] emits exactly one row, with FOB in
    foreign currency 10000.00, "DBK %" = "1.00", "RoDTEP %" = "0.50" and
    "RoDTEP Y/N" = "Yes". *)
Theorem scenario_one_row :
  exists r, flatten_to_excel_rows scenario_doc = Ok [r] /\
    dict_lookup r (u "FOB Value Declared by Us (S/B) in FC") =
      Some (PyFloat (F64.of_q false 1000000 100)) /\
    dict_lookup r (u "DBK %") = Some (PyStr (u "1.00")) /\
    dict_lookup r (u "RoDTEP %") = Some (PyStr (u "0.50")) /\
    dict_lookup r (u "RoDTEP Y/N") = Some (PyStr (u "Yes")).
Proof.
  eexists; split; [vm_compute; reflexivity|].
  vm_compute; repeat split.
Qed.

(** ** C8: sample values of [clean_number] *)

(** C8: [clean_number("₹1,234.50")] is 1234.50, [clean_number(None)] and
    [clean_number("N/A")] are 0.0. *)
Theorem clean_number_samples :
  clean_number (PyStr (u "₹1,234.50")) = Ok (F64.of_q false 123450 100) /\
  clean_number PyNone = Ok F64.zero /\
  clean_number (PyStr (u "N/A")) = Ok F64.zero.
Proof. vm_compute; repeat split. Qed.

(** ** C9: the LEO columns copy the SB columns *)

(** C9: in every row, "FOB Value as per LEO Ex. Rate in INR" equals "FOB
    Value as per SB in INR", and "LEO Date Exchange Rate (in FC)" equals
    "Custom Exchange Rate (in FC)" (both the normalised invoice rate). *)
Theorem flatten_leo_columns_copy (j : pyval) (rs : list row) :
  flatten_to_excel_rows j = Ok rs ->
  Forall (fun r =>
    dict_lookup r (u "FOB Value as per LEO Ex. Rate in INR") =
      dict_lookup r (u "FOB Value as per SB in INR") /\
    dict_lookup r (u "LEO Date Exchange Rate (in FC)") =
      dict_lookup r (u "Custom Exchange Rate (in FC)")) rs.
Proof.
  intros H; apply Forall_forall; intros r Hin.
  destruct (flatten_row_origin _ _ _ H Hin)
    as (header & inv & ex_rate & currency & item & _ & _ & Hr).
  apply flatten_item_fields in Hr as (H1 & H2 & H3 & _).
  split; congruence.
Qed.

(** ** C10: inputs lacking keys *)

(** C10 (counterexample): [flatten_to_excel_rows] is not total on dict
    inputs: a null ["invoices"] raises [TypeError] (iterating [None]), and a
    non-string ["PRODUCT GROUP"] raises [AttributeError] ([.strip()]), the
    second input lacking ["shipping_bill_header"]. *)
Theorem flatten_not_total :
  flatten_to_excel_rows (PyDict [(u "invoices", PyNone)]) = Raise TypeError /\
  flatten_to_excel_rows
    (PyDict [(u "invoices", PyList [PyDict [
       (u "items", PyList [PyDict [(u "PRODUCT GROUP", PyInt 5)]])]])]) =
    Raise AttributeError.
Proof. vm_compute; split; reflexivity. Qed.

(** C10 (as amended): on a dict input without ["invoices"] the result is
    the empty list, without raising; every row emitted carries, for each
    header field, [header.get(key, "")], where [header] is
    ["shipping_bill_header"] or [{}] when that key is absent, so an absent
    header or header field gives the empty string. *)
Theorem flatten_missing_keys (kv : list (pystr * pyval)) :
  (dict_lookup kv (u "invoices") = None ->
   flatten_to_excel_rows (PyDict kv) = Ok []) /\
  (forall rs r hk col,
     flatten_to_excel_rows (PyDict kv) = Ok rs -> In r rs -> In (hk, col) header_fields ->
     exists header v,
       py_get (PyDict kv) (u "shipping_bill_header") (PyDict []) = Ok header /\
       py_get header hk (PyStr []) = Ok v /\
       dict_lookup r col = Some v) /\
  (forall rs r hk col,
     dict_lookup kv (u "shipping_bill_header") = None ->
     flatten_to_excel_rows (PyDict kv) = Ok rs -> In r rs -> In (hk, col) header_fields ->
     dict_lookup r col = Some (PyStr [])).
Proof.
  assert (Hrow : forall rs r hk col,
     flatten_to_excel_rows (PyDict kv) = Ok rs -> In r rs -> In (hk, col) header_fields ->
     exists header v,
       py_get (PyDict kv) (u "shipping_bill_header") (PyDict []) = Ok header /\
       py_get header hk (PyStr []) = Ok v /\
       dict_lookup r col = Some v).
  { intros rs r hk col H Hin Hf.
    destruct (flatten_row_origin _ _ _ H Hin)
      as (header & inv & ex_rate & currency & item & Hh & _ & Hr).
    apply flatten_item_fields in Hr as (_ & _ & _ & _ & Hhf).
    rewrite Forall_forall in Hhf.
    destruct (Hhf _ Hf) as (v & Hv & Hl).
    exists header, v; auto. }
  split; [|split; [exact Hrow|]].
  - intros Hn. unfold flatten_to_excel_rows; simpl. rewrite Hn. reflexivity.
  - intros rs r hk col Hn H Hin Hf.
    destruct (Hrow _ _ _ _ H Hin Hf) as (header & v & Hh & Hv & Hl).
    simpl in Hh; rewrite Hn in Hh; inversion Hh; subst.
    inversion Hv; subst; exact Hl.
Qed.

(** ** Witnesses *)

Lemma clean_number_total_off_int_witness :
  is_int (PyStr (u "N/A")) = false /\
  exists f, clean_number (PyStr (u "N/A")) = Ok f /\
    (truthy (PyStr (u "N/A")) = false -> f = F64.zero) /\
    (forall g, PyStr (u "N/A") = PyFloat g -> truthy (PyStr (u "N/A")) = true -> f = g) /\
    (truthy (PyStr (u "N/A")) = true -> is_text (PyStr (u "N/A")) = true ->
       f = match float_of_clean_str (filter re_keep (py_str (PyStr (u "N/A")))) with
           | Some g => g
           | None => F64.zero
           end).
Proof.
  split; [reflexivity|].
  apply (clean_number_total_off_int (PyStr (u "N/A"))); reflexivity.
Defined.

Lemma flatten_invoice_currency_witness :
  exists rs, flatten_invoice (PyDict []) (PyDict scenario_invoice_kv) = Ok rs /\
  Forall (fun r => dict_lookup r (u "Currency of Export") =
                   Some (match dict_lookup scenario_invoice_kv (u "Currency of export") with
                         | Some v => v
                         | None => PyStr (u "USD")
                         end)) rs.
Proof.
  eexists; split; [vm_compute; reflexivity|].
  apply (flatten_invoice_currency (PyDict [])); vm_compute; reflexivity.
Defined.

Lemma flatten_leo_columns_copy_witness :
  exists rs, flatten_to_excel_rows scenario_doc = Ok rs /\
  Forall (fun r =>
    dict_lookup r (u "FOB Value as per LEO Ex. Rate in INR") =
      dict_lookup r (u "FOB Value as per SB in INR") /\
    dict_lookup r (u "LEO Date Exchange Rate (in FC)") =
      dict_lookup r (u "Custom Exchange Rate (in FC)")) rs.
Proof.
  eexists; split; [vm_compute; reflexivity|].
  apply (flatten_leo_columns_copy scenario_doc); vm_compute; reflexivity.
Defined.

(** ** Record assembly *)

Lemma pystr_eqb_sym (a b : pystr) : pystr_eqb a b = pystr_eqb b a.
Proof.
  destruct (pystr_eqb a b) eqn:H1, (pystr_eqb b a) eqn:H2; auto.
  - apply pystr_eqb_eq in H1; subst; rewrite pystr_eqb_refl in H2; discriminate.
  - apply pystr_eqb_eq in H2; subst; rewrite pystr_eqb_refl in H1; discriminate.
Qed.

Lemma mem_In (c : pystr) (cs : list pystr) : In c cs -> mem c cs = true.
Proof.
  intros H; apply existsb_exists; exists c; split; [exact H | apply pystr_eqb_refl].
Qed.

Lemma dict_lookup_In (r : row) (c : pystr) :
  In c (map fst r) -> exists v, dict_lookup r c = Some v.
Proof.
  induction r as [|[k v] r IH]; simpl; [tauto|].
  unfold dict_lookup; simpl.
  destruct (pystr_eqb k c) eqn:E; [eauto|].
  intros [-> | Hin]; [rewrite pystr_eqb_refl in E; discriminate | exact (IH Hin)].
Qed.

Lemma cell_map (g : pystr -> pyval) (cols : list pystr) (c : pystr) :
  mem c cols = true -> cell cols (map g cols) c = Some (g c).
Proof.
  induction cols as [|k cols IH]; simpl; [discriminate|].
  destruct (pystr_eqb k c) eqn:E.
  - apply pystr_eqb_eq in E; subst; reflexivity.
  - rewrite pystr_eqb_sym, E; simpl; exact IH.
Qed.

Lemma collect_inv (uploads : list upload) (all_data : list row) :
  collect uploads = Ok all_data ->
  exists rss, Forall2 (fun j rs => flatten_to_excel_rows j = Ok rs) (included uploads) rss /\
              all_data = List.concat rss.
Proof.
  revert all_data; induction uploads as [|up rest IH]; simpl; intros all_data H.
  - inversion H; subst; exists []; split; constructor.
  - apply bind_Ok in H as (rows0 & H0 & H).
    apply bind_Ok in H as (more & Hm & H); inversion H; subst; clear H.
    destruct (IH _ Hm) as (rss & Hf & ->).
    destruct up as [j|]; [destruct (truthy j)|].
    + exists (rows0 :: rss); split; [constructor; auto | reflexivity].
    + inversion H0; subst; exists rss; auto.
    + inversion H0; subst; exists rss; auto.
Qed.

Lemma flatten_rows_keys (j : pyval) (rs : list row) :
  flatten_to_excel_rows j = Ok rs -> Forall (fun r => map fst r = FINAL_COLUMNS) rs.
Proof.
  intros H; apply Forall_forall; intros r Hin.
  destruct (flatten_row_origin _ _ _ H Hin) as (? & ? & ? & ? & ? & _ & _ & Hr).
  exact (flatten_item_keys _ _ _ _ _ _ Hr).
Qed.

Lemma collect_keys (uploads : list upload) (all_data : list row) :
  collect uploads = Ok all_data -> Forall (fun r => map fst r = FINAL_COLUMNS) all_data.
Proof.
  intros H; destruct (collect_inv _ _ H) as (rss & Hf & ->).
  apply Forall_forall; intros r Hin.
  destruct (in_concat_Forall2 _ _ _ _ Hf Hin) as (j & rs & _ & Hj & Hr).
  exact (proj1 (Forall_forall _ _) (flatten_rows_keys _ _ Hj) r Hr).
Qed.

Lemma add_keys_final_nil : add_keys [] FINAL_COLUMNS = FINAL_COLUMNS.
Proof. vm_compute; reflexivity. Qed.

Lemma add_keys_final_final : add_keys FINAL_COLUMNS FINAL_COLUMNS = FINAL_COLUMNS.
Proof. vm_compute; reflexivity. Qed.

Lemma record_columns_final (all_data : list row) :
  all_data <> [] -> Forall (fun r => map fst r = FINAL_COLUMNS) all_data ->
  record_columns all_data = FINAL_COLUMNS.
Proof.
  unfold record_columns; destruct all_data as [|r rs]; [congruence|].
  intros _ Hk; inversion Hk as [|? ? Hr Hrs]; subst; simpl.
  rewrite Hr, add_keys_final_nil.
  clear Hk Hr; induction Hrs as [|r' rs Hr' _ IH]; simpl; [reflexivity|].
  rewrite Hr', add_keys_final_final; exact IH.
Qed.

Lemma safe_columns_final :
  filter (fun c => mem c FINAL_COLUMNS) FINAL_COLUMNS = FINAL_COLUMNS.
Proof. vm_compute; reflexivity. Qed.

Lemma final_columns_head : FINAL_COLUMNS = u "Sr. No." :: tl FINAL_COLUMNS.
Proof. reflexivity. Qed.

Lemma nth_error_combine_seq {A B} (f : nat -> B) (l : list A) (s i : nat) (x : A) :
  nth_error l i = Some x ->
  nth_error (combine l (map f (seq s (List.length l)))) i = Some (x, f (s + i)%nat).
Proof.
  revert s i; induction l as [|y l IH]; intros s [|i]; simpl; try discriminate.
  - intros H; inversion H; subst; rewrite Nat.add_0_r; reflexivity.
  - intros H; rewrite (IH (S s) i H), Nat.add_succ_r; reflexivity.
Qed.

Lemma mem_sr_no_final : mem (u "Sr. No.") FINAL_COLUMNS = true.
Proof. vm_compute; reflexivity. Qed.

Fixpoint nodupb (cs : list pystr) : bool :=
  match cs with
  | [] => true
  | c :: cs' => negb (mem c cs') && nodupb cs'
  end.

Lemma nodupb_NoDup (cs : list pystr) : nodupb cs = true -> NoDup cs.
Proof.
  induction cs as [|c cs IH]; cbn [nodupb]; intros H; [constructor|].
  apply andb_true_iff in H as [Hm Hd]; constructor; [|exact (IH Hd)].
  intros Hin; rewrite (mem_In _ _ Hin) in Hm; discriminate.
Qed.

Lemma final_columns_NoDup : NoDup FINAL_COLUMNS.
Proof. apply nodupb_NoDup; vm_compute; reflexivity. Qed.

Lemma pystr_eqb_neq (a b : pystr) : a <> b -> pystr_eqb a b = false.
Proof.
  intros H; destruct (pystr_eqb a b) eqn:E; [apply pystr_eqb_eq in E; contradiction | reflexivity].
Qed.

(** In a row laid out along distinct columns [cols], one cell per
    (column, dtype) pair, the cell of a column is the one built from it. *)
Lemma cell_combine (G : pystr * dtype -> pyval) (cols : list pystr) (dts : list dtype)
  (c : pystr) (d : dtype) :
  NoDup cols -> In (c, d) (combine cols dts) ->
  cell cols (map G (combine cols dts)) c = Some (G (c, d)).
Proof.
  revert dts; induction cols as [|k cols IH]; intros [|d' dts] Hn Hin;
    try contradiction.
  cbn [combine map cell] in *.
  destruct Hin as [Heq | Hin].
  - injection Heq as -> ->; rewrite pystr_eqb_refl; reflexivity.
  - apply NoDup_cons_iff in Hn as [Hk Hn].
    assert (Hc : In c cols) by exact (in_combine_l _ _ _ _ Hin).
    rewrite pystr_eqb_neq by (intros ->; contradiction).
    exact (IH _ Hn Hin).
Qed.

Lemma map_cell_combine (G : pystr * dtype -> pyval) (cols : list pystr) (dts : list dtype) :
  NoDup cols ->
  forall ks ds, List.length ks = List.length ds -> incl (combine ks ds) (combine cols dts) ->
  map (fun c => match cell cols (map G (combine cols dts)) c with
                | Some v => v
                | None => NaN
                end) ks = map G (combine ks ds).
Proof.
  intros Hn ks; induction ks as [|k ks IH]; intros [|d ds] Hl Hi; try discriminate;
    [reflexivity|].
  cbn [map combine].
  rewrite (cell_combine G cols dts k d Hn (Hi _ (or_introl eq_refl))).
  f_equal; apply IH; [injection Hl as Hl; exact Hl|].
  intros p Hp; apply Hi; right; exact Hp.
Qed.

Lemma find_combine (cols : list pystr) (dts : list dtype) (c : pystr) :
  In c cols -> List.length dts = List.length cols ->
  exists d : dtype, List.find (fun p => pystr_eqb (fst p) c) (combine cols dts) = Some (c, d) /\
    In (c, d) (combine cols dts).
Proof.
  revert dts; induction cols as [|k cols IH]; intros [|d' dts] Hin Hl;
    try contradiction; try discriminate.
  cbn [combine List.find fst].
  destruct (pystr_eqb k c) eqn:E.
  - apply pystr_eqb_eq in E; subst k; exists d'; split; [reflexivity | left; reflexivity].
  - destruct Hin as [-> | Hin]; [rewrite pystr_eqb_refl in E; discriminate|].
    injection Hl as Hl.
    destruct (IH dts Hin Hl) as (d & Hf & Hi); exists d; split; [exact Hf | right; exact Hi].
Qed.

Lemma Forall2_combine {A B} (P : A -> B -> Prop) (l1 : list A) (l2 : list B) x y :
  Forall2 P l1 l2 -> In (x, y) (combine l1 l2) -> P x y.
Proof.
  intros H; induction H as [|a b l1 l2 Hab _ IH]; cbn [combine In]; [tauto|].
  intros [Heq | Hin]; [injection Heq as -> ->; exact Hab | exact (IH Hin)].
Qed.

Lemma Ok_inj {A} (a b : A) : Ok a = Ok b -> a = b.
Proof. intros H; injection H; auto. Qed.

Lemma Ok_Some_inj {A} (a b : A) : Ok (Some a) = Ok (Some b) -> a = b.
Proof. intros H; injection H; auto. Qed.

Lemma assemble_eq (all_data : list row) :
  all_data <> [] ->
  assemble all_data =
    let* df := frame_of_records all_data in
    let safe_columns := filter (fun c => mem c (columns df)) FINAL_COLUMNS in
    let df := select df safe_columns in
    Ok (Some (set_column df (u "Sr. No.") (range1 (List.length (rows df))))).
Proof. destruct all_data; [congruence | reflexivity]. Qed.

(** The frame [process_files] builds from records that all carry the keys
    of [FINAL_COLUMNS]: those columns in that order, each with the dtype
    inferred from the records' values, and row [i] is record [i] converted
    column by column, with "Sr. No." set to [i + 1]. *)
Lemma assemble_rows (all_data : list row) (df : frame) :
  Forall (fun r => map fst r = FINAL_COLUMNS) all_data ->
  assemble all_data = Ok (Some df) ->
  exists dts,
    mapM (fun c => column_dtype (map (fun r => record_get r c) all_data)) FINAL_COLUMNS
      = Ok dts /\
    columns df = FINAL_COLUMNS /\
    List.length (rows df) = List.length all_data /\
    forall i r, nth_error all_data i = Some r ->
      nth_error (rows df) i =
        Some (PyInt (Z.of_nat (S i)) ::
              map (fun '(c, dt) => cast dt (record_get r c))
                  (combine (tl FINAL_COLUMNS) (tl dts))).
Proof.
  intros Hk H.
  assert (Hne : all_data <> []) by (intros ->; discriminate H).
  rewrite (assemble_eq _ Hne) in H.
  apply bind_Ok in H as (df0 & Hf & H); cbv zeta in H.
  apply Ok_Some_inj in H; subst df.
  unfold frame_of_records in Hf; rewrite (record_columns_final _ Hne Hk) in Hf.
  apply bind_Ok in Hf as (dts & Hd & Hf); apply Ok_inj in Hf; subst df0.
  exists dts; split; [exact Hd|].
  assert (Hl : List.length dts = List.length FINAL_COLUMNS)
    by (symmetry; exact (Forall2_length (mapM_Forall2 _ _ _ Hd))).
  assert (Hsel : forall rs : list (list pyval),
            rs = map (fun r => map (fun '(c, dt) => cast dt (record_get r c))
                                   (combine FINAL_COLUMNS dts)) all_data ->
            select {| columns := FINAL_COLUMNS; rows := rs |} FINAL_COLUMNS =
            {| columns := FINAL_COLUMNS; rows := rs |}).
  { intros rs ->; unfold select; cbn [columns rows]; f_equal.
    rewrite map_map; apply map_ext; intros r.
    apply (map_cell_combine (fun '(c, dt) => cast dt (record_get r c)) _ _ final_columns_NoDup);
      [symmetry; exact Hl | apply incl_refl]. }
  cbn [columns]; rewrite safe_columns_final, (Hsel _ eq_refl).
  unfold set_column; cbn [columns rows]; rewrite mem_sr_no_final.
  cbn [columns rows]; split; [reflexivity|].
  unfold range1.
  split.
  - rewrite !length_map, length_combine, !length_map, length_seq; lia.
  - intros i r Hi.
    assert (Hi' : nth_error (map (fun r => map (fun '(c, dt) => cast dt (record_get r c))
                                              (combine FINAL_COLUMNS dts)) all_data) i =
                  Some (map (fun '(c, dt) => cast dt (record_get r c)) (combine FINAL_COLUMNS dts)))
      by (rewrite nth_error_map, Hi; reflexivity).
    rewrite nth_error_map, (nth_error_combine_seq _ _ _ _ _ Hi'); cbn [option_map].
    destruct dts as [|d0 dts']; [discriminate Hl|].
    rewrite final_columns_head; cbn [combine map set_cell tl].
    rewrite pystr_eqb_refl; reflexivity.
Qed.

Lemma process_files_inv (uploads : list upload) (df : frame) :
  process_files uploads = Ok (Some df) ->
  exists all_data, collect uploads = Ok all_data /\ assemble all_data = Ok (Some df) /\
    all_data <> [].
Proof.
  unfold process_files; intros H.
  apply bind_Ok in H as (all_data & Hc & Ha).
  exists all_data; split; [exact Hc|]; split; [exact Ha|].
  intros ->; discriminate Ha.
Qed.

(** ** C6: row order and serial numbers *)

(** C6 (counterexample): "Sr. No." is not the only field that differs from
    the flattened record.  Two documents, the first with "SB NO." the int
    1234567 and no exchange rate, the second with "SB NO." null and rate
    83.0: the "SB NO." column holds an int and [None], so pandas stores it
    as float64, giving 1234567.0 and NaN; the FOB in FC column holds the int
    0 beside a float and stores 0.0. *)
Theorem process_files_casts_cells :
  exists all_data df,
    collect [Some sb_int_doc; Some sb_null_doc] = Ok all_data /\
    process_files [Some sb_int_doc; Some sb_null_doc] = Ok (Some df) /\
    map (fun r => dict_lookup r (u "SB NO.")) all_data =
      [Some (PyInt 1234567); Some PyNone] /\
    map (fun dr => cell (columns df) dr (u "SB NO.")) (rows df) =
      [Some (PyFloat (F64.of_Z 1234567)); Some NaN] /\
    map (fun r => dict_lookup r (u "FOB Value Declared by Us (S/B) in FC")) all_data =
      [Some (PyInt 0); Some (PyFloat (F64.of_Z 10000))] /\
    map (fun dr => cell (columns df) dr (u "FOB Value Declared by Us (S/B) in FC")) (rows df) =
      [Some (PyFloat (F64.of_Z 0)); Some (PyFloat (F64.of_Z 10000))].
Proof.
  do 2 eexists.
  split; [vm_compute; reflexivity|]; split; [vm_compute; reflexivity|].
  vm_compute; repeat split.
Qed.

(** C6 (as amended): when [process_files] returns a frame, its rows are, in
    order, the rows [flatten_to_excel_rows] emits for each included upload
    in upload order (each of which lists invoices, then items, in input
    order); row [i] (from 0) has "Sr. No." [i + 1], so the serial numbers
    are 1..N over the N rows.  Every other column [c] has one dtype, the one
    pandas infers from the values of [c] over all the records, and row [i]
    holds the value of record [i] converted to it (unchanged except in a
    float64 column, where an int becomes a float and [None] becomes NaN). *)
Theorem process_files_row_order (uploads : list upload) (df : frame) :
  process_files uploads = Ok (Some df) ->
  exists rss,
    Forall2 (fun j rs => flatten_to_excel_rows j = Ok rs) (included uploads) rss /\
    List.length (rows df) = List.length (List.concat rss) /\
    exists dtype_of : pystr -> dtype,
      (forall c, In c (columns df) ->
         column_dtype (map (fun r => record_get r c) (List.concat rss)) = Ok (dtype_of c)) /\
      forall i r, nth_error (List.concat rss) i = Some r ->
        exists dr, nth_error (rows df) i = Some dr /\
          forall c, In c (columns df) ->
            cell (columns df) dr c =
              if pystr_eqb c (u "Sr. No.") then Some (PyInt (Z.of_nat (S i)))
              else option_map (cast (dtype_of c)) (dict_lookup r c).
Proof.
  intros H.
  destruct (process_files_inv _ _ H) as (all_data & Hc & Ha & Hne).
  assert (Hk := collect_keys _ _ Hc).
  destruct (collect_inv _ _ Hc) as (rss & Hf & Hall).
  destruct (assemble_rows _ _ Hk Ha) as (dts & Hd & Hcols & Hlen & Hrow).
  assert (Hl : List.length dts = List.length FINAL_COLUMNS)
    by (symmetry; exact (Forall2_length (mapM_Forall2 _ _ _ Hd))).
  exists rss; split; [exact Hf|]; split; [rewrite Hlen, Hall; reflexivity|].
  exists (fun c => match List.find (fun p => pystr_eqb (fst p) c) (combine FINAL_COLUMNS dts) with
                   | Some (_, d) => d
                   | None => DtObject
                   end).
  rewrite <- Hall; split.
  - intros c Hin; rewrite Hcols in Hin.
    destruct (find_combine _ _ _ Hin Hl) as (d & Hfd & Hid); rewrite Hfd.
    exact (Forall2_combine _ _ _ _ _ (mapM_Forall2 _ _ _ Hd) Hid).
  - intros i r Hi.
    eexists; split; [exact (Hrow _ _ Hi)|].
    intros c Hin; rewrite Hcols in Hin |- *.
    assert (Hr : map fst r = FINAL_COLUMNS)
      by exact (proj1 (Forall_forall _ _) Hk r (nth_error_In _ _ Hi)).
    destruct (find_combine _ _ _ Hin Hl) as (d & Hfd & Hid); rewrite Hfd.
    destruct dts as [|d0 dts']; [discriminate Hl|].
    cbn [tl].
    rewrite final_columns_head at 1; cbn [cell].
    rewrite (pystr_eqb_sym (u "Sr. No.") c).
    destruct (pystr_eqb c (u "Sr. No.")) eqn:Ec; [reflexivity|].
    rewrite final_columns_head in Hid; cbn [combine In] in Hid.
    destruct Hid as [Heq | Hid].
    + injection Heq as Heq _; subst c; rewrite pystr_eqb_refl in Ec; discriminate.
    + assert (Hnd : NoDup (tl FINAL_COLUMNS))
        by (pose proof final_columns_NoDup as Hn; rewrite final_columns_head in Hn;
            apply NoDup_cons_iff in Hn; exact (proj2 Hn)).
      assert (Hcell : cell (tl FINAL_COLUMNS)
                        (map (fun '(c, dt) => cast dt (record_get r c))
                             (combine (tl FINAL_COLUMNS) dts')) c =
                      Some (cast d (record_get r c)))
        by exact (cell_combine _ _ _ _ _ Hnd Hid).
      rewrite Hcell.
      destruct (dict_lookup_In r c) as (v & Hv).
      * rewrite Hr, final_columns_head; right; exact (in_combine_l _ _ _ _ Hid).
      * unfold record_get; rewrite Hv; reflexivity.
Qed.

(** ** C7: column projection *)

(** C7 (counterexample): the canonical column list [FINAL_COLUMNS] has 27
    columns, not 26. *)
Theorem final_columns_not_26 :
  List.length FINAL_COLUMNS <> 26%nat /\ List.length FINAL_COLUMNS = 27%nat.
Proof. vm_compute; split; [discriminate | reflexivity]. Qed.

(** C7 (as amended): when [process_files] returns a frame, its columns are
    the columns of the 27-entry [FINAL_COLUMNS] that occur as a key of some
    accumulated record, in the order of [FINAL_COLUMNS] (keys outside the
    list would be dropped, listed columns no record has omitted); since
    every flattened record carries all 27 keys, these are all 27 columns. *)
Theorem process_files_columns (uploads : list upload) (df : frame) :
  process_files uploads = Ok (Some df) ->
  List.length FINAL_COLUMNS = 27%nat /\
  exists all_data, collect uploads = Ok all_data /\ all_data <> [] /\
    columns df = filter (fun c => mem c (record_columns all_data)) FINAL_COLUMNS /\
    columns df = FINAL_COLUMNS.
Proof.
  intros H; split; [reflexivity|].
  destruct (process_files_inv _ _ H) as (all_data & Hc & Ha & Hne).
  assert (Hk := collect_keys _ _ Hc).
  destruct (assemble_rows _ _ Hk Ha) as (dts & _ & Hcols & _).
  exists all_data; split; [exact Hc|]; split; [exact Hne|].
  rewrite (record_columns_final _ Hne Hk), safe_columns_final; auto.
Qed.

Lemma process_files_row_order_witness :
  let uploads := [Some sb_int_doc; Some sb_null_doc] in
  exists df, process_files uploads = Ok (Some df) /\
  exists rss,
    Forall2 (fun j rs => flatten_to_excel_rows j = Ok rs) (included uploads) rss /\
    List.length (rows df) = List.length (List.concat rss) /\
    exists dtype_of : pystr -> dtype,
      (forall c, In c (columns df) ->
         column_dtype (map (fun r => record_get r c) (List.concat rss)) = Ok (dtype_of c)) /\
      forall i r, nth_error (List.concat rss) i = Some r ->
        exists dr, nth_error (rows df) i = Some dr /\
          forall c, In c (columns df) ->
            cell (columns df) dr c =
              if pystr_eqb c (u "Sr. No.") then Some (PyInt (Z.of_nat (S i)))
              else option_map (cast (dtype_of c)) (dict_lookup r c).
Proof.
  intros uploads.
  eexists; split; [vm_compute; reflexivity|].
  apply (process_files_row_order uploads); vm_compute; reflexivity.
Defined.

Lemma process_files_columns_witness :
  exists df, process_files [Some scenario_doc] = Ok (Some df) /\
  List.length FINAL_COLUMNS = 27%nat /\
  exists all_data, collect [Some scenario_doc] = Ok all_data /\ all_data <> [] /\
    columns df = filter (fun c => mem c (record_columns all_data)) FINAL_COLUMNS /\
    columns df = FINAL_COLUMNS.
Proof.
  eexists; split; [vm_compute; reflexivity|].
  apply (process_files_columns [Some scenario_doc]); vm_compute; reflexivity.
Defined.

(** * Further properties of the code *)

(** ** Helper lemmas *)

Lemma flatten_invoice_count (header inv : pyval) (rs : list row) :
  flatten_invoice header inv = Ok rs ->
  exists its, invoice_items inv = Ok its /\ List.length rs = List.length its.
Proof.
  unfold flatten_invoice, invoice_items; intros H; bind_ok H.
  exists a4; split; [rewrite ?E; exact E4|].
  symmetry; exact (Forall2_length (mapM_Forall2 _ _ _ H)).
Qed.

Lemma flatten_count (j : pyval) (rs : list row) :
  flatten_to_excel_rows j = Ok rs ->
  exists itss, document_items j = Ok itss /\
               List.length rs = list_sum (map (@List.length pyval) itss).
Proof.
  unfold flatten_to_excel_rows, document_items; intros H; bind_ok H.
  injection H as <-.
  apply mapM_Forall2 in E2.
  enough (Hm : exists itss, mapM invoice_items a1 = Ok itss /\
            List.length (List.concat a2) = list_sum (map (@List.length pyval) itss))
    by (destruct Hm as (itss & Hm & Hl); exists itss; split; [cbn [bind]; rewrite E1; cbn [bind]; exact Hm | exact Hl]).
  clear E E0 E1; induction E2 as [|inv rs_i invs rss Hi _ IH]; [exists []; split; reflexivity|].
  destruct IH as (itss & Hm & Hl).
  destruct (flatten_invoice_count _ _ _ Hi) as (its & Hits & Hli).
  exists (its :: itss); split.
  - cbn; rewrite Hits, Hm; reflexivity.
  - cbn; rewrite length_app, Hl, Hli; reflexivity.
Qed.

(** X1: [flatten_to_excel_rows] emits exactly one row per item: the
    number of rows is the sum, over the invoices, of the lengths of their
    [items] lists. *)
Theorem flatten_to_excel_rows_count (j : pyval) (rs : list row) :
  flatten_to_excel_rows j = Ok rs ->
  exists itss, document_items j = Ok itss /\
               List.length rs = list_sum (map (@List.length pyval) itss).
Proof. exact (flatten_count j rs). Qed.

(** X2: [process_files] stores a table exactly when the included documents
    have at least one item in total, and the table then has one row per
    item; with no item at all, nothing is stored. *)
Theorem process_files_count (uploads : list upload) (res : option frame) :
  process_files uploads = Ok res ->
  exists itsss,
    Forall2 (fun j itss => document_items j = Ok itss) (included uploads) itsss /\
    let n := list_sum (map (fun itss => list_sum (map (@List.length pyval) itss)) itsss) in
    (n = 0%nat /\ res = None) \/
    (exists df, res = Some df /\ List.length (rows df) = n /\ n <> 0%nat).
Proof.
  unfold process_files; intros H.
  apply bind_Ok in H as (all_data & Hc & Ha).
  assert (Hk := collect_keys _ _ Hc).
  destruct (collect_inv _ _ Hc) as (rss & Hf & Hall).
  assert (Hd : exists itsss,
            Forall2 (fun j itss => document_items j = Ok itss) (included uploads) itsss /\
            List.length (List.concat rss) =
              list_sum (map (fun itss => list_sum (map (@List.length pyval) itss)) itsss)).
  { clear Hc Hall Hk Ha; induction Hf as [|j rs js rss Hj _ IH]; [exists []; split; [constructor | reflexivity]|].
    destruct IH as (itsss & Hi & Hl).
    destruct (flatten_count _ _ Hj) as (itss & Hd & Hlj).
    exists (itss :: itsss); split; [constructor; assumption|].
    cbn; rewrite length_app, Hl, Hlj; reflexivity. }
  destruct Hd as (itsss & Hd & Hl); exists itsss; split; [exact Hd|]; cbn zeta.
  rewrite <- Hl, <- Hall.
  destruct res as [df|].
  - right.
    destruct (assemble_rows _ _ Hk Ha) as (dts & _ & _ & Hlen & _).
    exists df; split; [reflexivity|]; split; [exact Hlen|].
    intros H0; apply length_zero_iff_nil in H0; rewrite H0 in Ha; unfold assemble in Ha;
      discriminate Ha.
  - left; split; [|reflexivity].
    destruct all_data as [|r0 rs0]; [reflexivity|].
    rewrite (assemble_eq (r0 :: rs0)) in Ha by discriminate.
    apply bind_Ok in Ha as (df0 & _ & Ha); discriminate Ha.
Qed.

Lemma filter_idem {A} (f : A -> bool) (l : list A) : filter f (filter f l) = filter f l.
Proof.
  induction l as [|x l IH]; cbn; [reflexivity|].
  destruct (f x) eqn:E; cbn; [rewrite E, IH | rewrite IH]; reflexivity.
Qed.

(** X3: on a string, [clean_number] depends only on the digits, points
    and minus signs the string contains: filtering out every other
    character first does not change the result. *)
Theorem clean_number_filter (s : pystr) :
  clean_number (PyStr s) = clean_number (PyStr (filter re_keep s)).
Proof.
  unfold clean_number; cbn [truthy py_str].
  destruct s as [|c s]; [reflexivity|]; cbn [negb].
  rewrite filter_idem.
  destruct (filter re_keep (c :: s)) eqn:Ef; cbn [negb]; [reflexivity|].
  reflexivity.
Qed.

(** [lstrip] drops a prefix of whitespace and stops at a non-space. *)
Lemma lstrip_spec (s : pystr) :
  exists p, s = p ++ lstrip s /\ Forall (fun c => is_space c = true) p /\
            (lstrip s = [] \/ is_space (hd 0 (lstrip s)) = false).
Proof.
  induction s as [|c s IH]; [exists []; cbn; auto|].
  unfold lstrip; cbn -[is_space]; fold (lstrip s).
  destruct (is_space c) eqn:Ec.
  - destruct IH as (p & Hp & Hs & Hl); exists (c :: p); split; [cbn; rewrite <- Hp; reflexivity|].
    split; [constructor; assumption | exact Hl].
  - exists []; split; [reflexivity|]; split; [constructor|right; exact Ec].
Qed.

Lemma hd_rev (l : pystr) : l <> [] -> hd 0 (rev l) = last l 0.
Proof.
  induction l as [|x l IH] using rev_ind; [congruence|].
  intros _; rewrite rev_app_distr, last_last; reflexivity.
Qed.

Lemma last_rev (l : pystr) : l <> [] -> last (rev l) 0 = hd 0 l.
Proof. destruct l as [|x l]; [congruence|]; intros _; cbn; apply last_last. Qed.

Lemma last_app_ne (p w : pystr) : w <> [] -> last (p ++ w) 0 = last w 0.
Proof.
  induction p as [|x p IH]; intros Hw; [reflexivity|].
  cbn [app]; rewrite <- IH by exact Hw.
  destruct (p ++ w) eqn:E; [destruct p, w; cbn in E; try discriminate E; congruence | reflexivity].
Qed.

(** [str.strip()] removes surrounding whitespace and nothing else. *)
Lemma strip_spec (s : pystr) :
  exists p q, s = p ++ strip s ++ q /\
    Forall (fun c => is_space c = true) p /\ Forall (fun c => is_space c = true) q /\
    (strip s = [] \/ (is_space (hd 0 (strip s)) = false /\
                      is_space (last (strip s) 0) = false)).
Proof.
  destruct (lstrip_spec s) as (p & Hp & Hsp & Ht).
  destruct (lstrip_spec (rev (lstrip s))) as (p2 & Hp2 & Hsp2 & Hw).
  unfold strip.
  exists p, (rev p2); split.
  { rewrite Hp at 1; f_equal.
    transitivity (rev (rev (lstrip s))); [symmetry; apply rev_involutive|].
    rewrite Hp2 at 1; rewrite rev_app_distr; reflexivity. }
  split; [exact Hsp|]; split; [apply Forall_rev; exact Hsp2|].
  destruct (lstrip (rev (lstrip s))) as [|c w'] eqn:Ew; [left; reflexivity|].
  destruct Hw as [Hw | Hw]; [discriminate|].
  assert (Hwne : c :: w' <> []) by discriminate.
  assert (Htne : lstrip s <> []).
  { intros Ht0; rewrite Ht0 in Ew; discriminate Ew. }
  right; split.
  - rewrite hd_rev by exact Hwne.
    assert (Hl : last (rev (lstrip s)) 0 = last (c :: w') 0)
      by (rewrite Hp2; apply last_app_ne; exact Hwne).
    rewrite <- Hl, last_rev by exact Htne.
    destruct Ht as [Ht | Ht]; [congruence | exact Ht].
  - rewrite last_rev by exact Hwne; exact Hw.
Qed.


Lemma item_amounts_eq (ex_rate fob_inr dbk_amt rodtep_amt : F64.t) :
  item_amounts ex_rate fob_inr dbk_amt rodtep_amt =
  Ok ((if F64.gt0 ex_rate then PyFloat (F64.div fob_inr ex_rate) else PyInt 0),
      (if F64.gt0 fob_inr then PyFloat (F64.mul (F64.div rodtep_amt fob_inr) (F64.of_Z 100))
       else PyInt 0),
      (if F64.gt0 fob_inr then PyFloat (F64.mul (F64.div dbk_amt fob_inr) (F64.of_Z 100))
       else PyInt 0)).
Proof.
  unfold item_amounts, py_truediv.
  destruct (F64.gt0 ex_rate) eqn:G1; [rewrite (gt0_nonzero _ G1)|];
    (destruct (F64.gt0 fob_inr) eqn:G2; [rewrite (gt0_nonzero _ G2)|]); reflexivity.
Qed.

(** Key lookups in a row literal, leaving the float operations folded. *)
Ltac lookup_simpl :=
  cbv beta iota zeta delta -[F64.round2 fmt_2f F64.div F64.mul F64.gt0 F64.of_Z strip].

(** Inverting [flatten_item]: the amounts, rounded and formatted. *)
Ltac flatten_item_inv H :=
  unfold flatten_item in H; bind_ok H;
  match goal with E : item_amounts _ _ _ _ = Ok (_, _, _) |- _ =>
    rewrite item_amounts_eq in E; injection E as <- <- <- end;
  repeat match goal with
  | E : py_round2 (PyFloat _) = Ok _ |- _ => cbn [py_round2] in E; injection E as <-
  end;
  injection H as <-.

(** X5: the RoDTEP flag is computed on the unrounded amount: a positive
    RoDTEP amount that rounds to 0.00 (such as 0.004) gives "Yes" in
    RoDTEP Y/N while RoDTEP Receivable and Balance RoDTEP show 0.0. *)
Theorem flatten_item_rodtep_flag_vs_amount (header inv : pyval) (ex_rate : F64.t)
  (currency item v : pyval) (r : row) (m : positive) (e : Z) :
  flatten_item header inv ex_rate currency item = Ok r ->
  py_get item (u "RoDTEP RECEIVABLE") PyNone = Ok v ->
  clean_number v = Ok (S754_finite false m e) ->
  F64.hundredths m e = 0 ->
  dict_lookup r (u "RoDTEP Y/N") = Some (PyStr (u "Yes")) /\
  dict_lookup r (u "RoDTEP Receivable") = Some (PyFloat F64.zero) /\
  dict_lookup r (u "Balance RoDTEP") = Some (PyFloat F64.zero).
Proof.
  intros H; flatten_item_inv H; intros Hv Hc Hh.
  injection Hv as <-; rewrite E6 in Hc; injection Hc as ->.
  assert (Hr : F64.round2 (S754_finite false m e) = F64.zero)
    by (cbn [F64.round2]; rewrite Hh; reflexivity).
  destruct (F64.gt0 ex_rate), (F64.gt0 a0);
    cbn [py_round2 py_format_2f bind] in *;
    repeat match goal with
           | E : Ok _ = Ok _ |- _ => injection E as <-
           | E : bind (py_float_of_int 0) _ = Ok _ |- _ => vm_compute in E; injection E as <-
           end;
    rewrite Hr; lookup_simpl; repeat split.
Qed.

(** X7: Product Group and SB – Solar / Other Goods both hold the item's
    PRODUCT GROUP string with surrounding whitespace removed (and nothing
    else removed), Scheme is always "DRAWBACK" and Sr. No. is empty. *)
Theorem flatten_item_text_columns (header inv : pyval) (ex_rate : F64.t)
  (currency item : pyval) (r : row) :
  flatten_item header inv ex_rate currency item = Ok r ->
  exists s,
    py_get item (u "PRODUCT GROUP") (PyStr []) = Ok (PyStr s) /\
    dict_lookup r (u "Product Group") = Some (PyStr (strip s)) /\
    dict_lookup r (u "SB – Solar / Other Goods") = Some (PyStr (strip s)) /\
    dict_lookup r (u "Scheme (ADV/DFIA/Drawback)") = Some (PyStr (u "DRAWBACK")) /\
    dict_lookup r (u "Sr. No.") = Some (PyStr []) /\
    exists p q, s = p ++ strip s ++ q /\
      Forall (fun c => is_space c = true) p /\ Forall (fun c => is_space c = true) q /\
      (strip s = [] \/ (is_space (hd 0 (strip s)) = false /\
                        is_space (last (strip s) 0) = false)).
Proof.
  intros H; unfold flatten_item in H; bind_ok H; injection H as <-.
  match goal with E : py_strip ?v = Ok _ |- _ =>
    destruct v as [| | | | s | |]; try discriminate E; injection E as <- end.
  exists s; split; [first [reflexivity | assumption]|].
  split; [vm_compute; reflexivity|]; split; [vm_compute; reflexivity|].
  split; [vm_compute; reflexivity|]; split; [vm_compute; reflexivity|].
  apply strip_spec.
Qed.

(** The scan of [s.replace("```", "")]. *)
Lemma replace_ticks_eq (s : pystr) :
  py_replace s (u "```") [] = replace_scan [96; 96; 96] [] s O.
Proof. reflexivity. Qed.

Lemma replace_ticks_match (a b c : Z) (r : pystr) :
  prefixb [96; 96; 96] (a :: b :: c :: r) = true ->
  replace_scan [96; 96; 96] [] (a :: b :: c :: r) O = replace_scan [96; 96; 96] [] r O.
Proof. intros H; cbn -[prefixb]; rewrite H; reflexivity. Qed.

Lemma replace_ticks_nomatch (c : Z) (r : pystr) :
  prefixb [96; 96; 96] (c :: r) = false ->
  replace_scan [96; 96; 96] [] (c :: r) O = c :: replace_scan [96; 96; 96] [] r O.
Proof. intros H; cbn -[prefixb]; rewrite H; reflexivity. Qed.

Lemma prefixb_ticks (s : pystr) :
  prefixb [96; 96; 96] s = true <-> exists t, s = 96 :: 96 :: 96 :: t.
Proof.
  split.
  - intros Hm; destruct s as [|a [|b [|c t]]]; cbn [prefixb] in Hm;
      rewrite ?andb_true_iff, ?Z.eqb_eq in Hm; decompose [and] Hm; try discriminate; subst; eauto.
  - intros (t & ->); reflexivity.
Qed.

(** A scan that does not start on two backquotes does not output two
    leading backquotes. *)
Lemma replace_ticks_head (s : pystr) :
  (forall t, s <> 96 :: 96 :: t) ->
  forall t, replace_scan [96; 96; 96] [] s O <> 96 :: 96 :: t.
Proof.
  intros Hs t.
  destruct s as [|c r]; [discriminate|].
  destruct (prefixb [96; 96; 96] (c :: r)) eqn:Em.
  { apply prefixb_ticks in Em as (t' & Em); injection Em as -> ->; exfalso; exact (Hs _ eq_refl). }
  rewrite replace_ticks_nomatch by exact Em.
  destruct (Z.eq_dec c 96) as [->|Hc]; [|congruence].
  destruct r as [|d r']; [discriminate|].
  destruct (Z.eq_dec d 96) as [->|Hd]; [exfalso; exact (Hs _ eq_refl)|].
  rewrite replace_ticks_nomatch by (cbn [prefixb]; rewrite (proj2 (Z.eqb_neq 96 d)) by congruence; reflexivity).
  congruence.
Qed.

Lemma replace_ticks_none (s : pystr) :
  forall p q, replace_scan [96; 96; 96] [] s O <> p ++ [96; 96; 96] ++ q.
Proof.
  induction s as [s IH] using (well_founded_induction (Wf_nat.well_founded_ltof _ (@List.length Z))).
  intros p q Heq.
  destruct (prefixb [96; 96; 96] s) eqn:Em.
  - apply prefixb_ticks in Em as (t & ->).
    rewrite replace_ticks_match in Heq by reflexivity.
    exact (IH t ltac:(unfold Wf_nat.ltof; cbn; lia) p q Heq).
  - destruct s as [|c r]; [destruct p; discriminate|].
    rewrite replace_ticks_nomatch in Heq by exact Em.
    destruct p as [|c' p].
    + injection Heq as -> Hr.
      refine (replace_ticks_head r _ q Hr).
      intros t ->; rewrite (proj2 (prefixb_ticks _) (ex_intro _ t eq_refl)) in Em; discriminate.
    + injection Heq as -> Hr; exact (IH r ltac:(unfold Wf_nat.ltof; cbn; lia) p q Hr).
Qed.

(** X8: the text [get_hierarchical_json] passes to [json.loads] never
    contains three consecutive backquotes, whatever the model replied. *)
Theorem clean_reply_no_fence (content : pystr) :
  forall p q, clean_reply content <> p ++ u "```" ++ q.
Proof.
  intros p q Heq; unfold clean_reply in Heq.
  destruct (strip_spec (py_replace (py_replace content (u "```json") []) (u "```") []))
    as (p0 & q0 & Hs & _).
  rewrite Heq, replace_ticks_eq in Hs.
  apply (replace_ticks_none (py_replace content (u "```json") []) (p0 ++ p) (q ++ q0)).
  rewrite Hs; cbn; rewrite <- !app_assoc; reflexivity.
Qed.


Lemma forallb_range (P : Z -> bool) (lo : Z) (k : nat) :
  forallb (fun i => P (lo + Z.of_nat i)) (seq 0 k) = true ->
  forall n, lo <= n < lo + Z.of_nat k -> P n = true.
Proof.
  intros H n Hn.
  rewrite forallb_forall in H.
  specialize (H (Z.to_nat (n - lo))).
  rewrite Z2Nat.id in H by lia.
  replace (lo + (n - lo)) with n in H by lia.
  apply H, in_seq; lia.
Qed.

(** X9: [format_inr] switches to millions only from 1,000,000 on: every
    whole-rupee value from 999950 to 999999 is shown as "₹1000.0K". *)
Theorem format_inr_below_million (n : Z) :
  999950 <= n < 1000000 -> format_inr (F64.of_Z n) = u "₹1000.0K".
Proof.
  intros Hn; apply pystr_eqb_eq.
  revert n Hn; apply (forallb_range (fun n => pystr_eqb (format_inr (F64.of_Z n)) (u "₹1000.0K")) 999950 50).
  vm_compute; reflexivity.
Qed.

(** ** Witnesses of the further properties *)

Lemma flatten_to_excel_rows_count_witness :
  let j := scenario_doc in
  exists rs, flatten_to_excel_rows j = Ok rs /\
  exists itss, document_items j = Ok itss /\
               List.length rs = list_sum (map (@List.length pyval) itss).
Proof.
  intros j.
  eexists; split; [vm_compute; reflexivity|].
  apply (flatten_to_excel_rows_count j); vm_compute; reflexivity.
Defined.

Lemma process_files_count_witness :
  let uploads := [Some scenario_doc] in
  exists res, process_files uploads = Ok res /\
  exists itsss,
    Forall2 (fun j itss => document_items j = Ok itss) (included uploads) itsss /\
    let n := list_sum (map (fun itss => list_sum (map (@List.length pyval) itss)) itsss) in
    (n = 0%nat /\ res = None) \/
    (exists df, res = Some df /\ List.length (rows df) = n /\ n <> 0%nat).
Proof.
  intros uploads.
  eexists; split; [vm_compute; reflexivity|].
  apply (process_files_count uploads); vm_compute; reflexivity.
Defined.

Lemma flatten_item_text_columns_witness :
  let header := PyDict [] in
  let inv := PyDict scenario_invoice_kv in
  let ex_rate := F64.of_q false 830 10 in
  let currency := PyStr (u "USD") in
  let item := scenario_item in
  exists r, flatten_item header inv ex_rate currency item = Ok r /\
  exists s,
    py_get item (u "PRODUCT GROUP") (PyStr []) = Ok (PyStr s) /\
    dict_lookup r (u "Product Group") = Some (PyStr (strip s)) /\
    dict_lookup r (u "SB – Solar / Other Goods") = Some (PyStr (strip s)) /\
    dict_lookup r (u "Scheme (ADV/DFIA/Drawback)") = Some (PyStr (u "DRAWBACK")) /\
    dict_lookup r (u "Sr. No.") = Some (PyStr []) /\
    exists p q, s = p ++ strip s ++ q /\
      Forall (fun c => is_space c = true) p /\ Forall (fun c => is_space c = true) q /\
      (strip s = [] \/ (is_space (hd 0 (strip s)) = false /\
                        is_space (last (strip s) 0) = false)).
Proof.
  intros header inv ex_rate currency item.
  eexists; split; [vm_compute; reflexivity|].
  apply (flatten_item_text_columns header inv ex_rate currency item); vm_compute; reflexivity.
Defined.

Lemma flatten_item_rodtep_flag_vs_amount_witness :
  let header := PyDict [] in
  let inv := PyDict scenario_invoice_kv in
  let ex_rate := F64.of_q false 830 10 in
  let currency := PyStr (u "USD") in
  let item := PyDict [(u "FOB Value as per SB in INR", PyInt 1000);
                        (u "RoDTEP RECEIVABLE", PyStr (u "0.004"))] in
  exists r, flatten_item header inv ex_rate currency item = Ok r /\
  py_get item (u "RoDTEP RECEIVABLE") PyNone = Ok (PyStr (u "0.004")) /\
  clean_number (PyStr (u "0.004")) = Ok (S754_finite false 4611686018427388 (-60)) /\
  F64.hundredths 4611686018427388 (-60) = 0 /\
  dict_lookup r (u "RoDTEP Y/N") = Some (PyStr (u "Yes")) /\
  dict_lookup r (u "RoDTEP Receivable") = Some (PyFloat F64.zero) /\
  dict_lookup r (u "Balance RoDTEP") = Some (PyFloat F64.zero).
Proof.
  intros header inv ex_rate currency item.
  eexists; split; [vm_compute; reflexivity|].
  split; [vm_compute; reflexivity|]; split; [vm_compute; reflexivity|]; split; [vm_compute; reflexivity|].
  apply (flatten_item_rodtep_flag_vs_amount header inv ex_rate currency item
           (PyStr (u "0.004")) _ 4611686018427388 (-60)); vm_compute; reflexivity.
Defined.

Lemma format_inr_below_million_witness :
  (999950 <= 999999 < 1000000) /\ format_inr (F64.of_Z 999999) = u "₹1000.0K".
Proof.
  split; [lia|].
  apply (format_inr_below_million 999999); lia.
Defined.
